(** * SearchKicks: orbit I/O, legacy MATLAB helpers and kick localisation

    A shallow embedding of [search_kicks/tools/io.py],
    [search_kicks/tools/matlab.py] and [search_kicks/core/get_kick.py].

    Conventions of the embedding:
    - Python floats and NumPy [float64] entries are exact rationals ([Q]);
      rounding is not modelled.
    - a Python [dict] is a [gmap string _]; a Python [list] is a [list];
    - a raised exception is a value of [exn] returned in [Err]; every
      [raise] site of the sources has its own constructor, carrying the
      values the message is formatted with;
    - a [str] is held as its UTF-8 encoding, a [bytes] as its bytes;
    - the clock ([datetime.now()]), the network ([urlopen]) and what
      comes from outside these modules ([fit_sine], [np.cos], [np.pi]) are
      parameters; so is what differs between the releases of NumPy
      ([Numpy.t]);
    - [datetime] follows CPython 3.11 on Linux; an aware datetime carries
      a fixed offset to UTC;
    - the locale [en_US.utf8] that [load_orbit_dump] switches to is
      installed: [locale.setlocale] returns, and the names of the days and
      months are the English ones;
    - printing and plotting are left out: they do not change what a
      function returns or raises. *)

From Stdlib Require Import ZArith QArith Qround Qabs Lia String Ascii List.
From stdpp Require Import base option list strings gmap fin_maps.

Local Open Scope string_scope.

(** ** Text: the [str] methods the sources call

    A [str] is held as its UTF-8 encoding, one [ascii] per byte: the
    functions below read its characters (code points) from the bytes.
    [bytes.decode('utf8')] is the check [Text.decodable]. *)

Module Text.

Definition code (c : ascii) : Z := Z.of_N (N_of_ascii c).

(** A continuation byte [10xxxxxx] and its six bits. *)
Definition continuation (c : ascii) : option Z :=
  if (128 <=? code c)%Z && (code c <=? 191)%Z
  then Some (code c - 128)%Z else None.

(** The first character of [s], as its code point, and the text after
    it; nothing when [s] is empty or does not start with a well-formed
    UTF-8 sequence (shortest form, no surrogate, at most U+10FFFF). *)
Definition next_char (s : string) : option (Z * string) :=
  match s with
  | "" => None
  | String a s1 =>
      let a := code a in
      if (a <? 128)%Z then Some (a, s1)
      else if (a <? 194)%Z then None
      else if (a <? 224)%Z then
        match s1 with
        | String b s2 =>
            x ← continuation b; Some ((a - 192) * 64 + x, s2)%Z
        | _ => None
        end
      else if (a <? 240)%Z then
        match s1 with
        | String b (String c s3) =>
            x ← continuation b; y ← continuation c;
            let cp := ((a - 224) * 4096 + x * 64 + y)%Z in
            if (2048 <=? cp)%Z && negb ((55296 <=? cp)%Z && (cp <=? 57343)%Z)
            then Some (cp, s3) else None
        | _ => None
        end
      else if (a <? 245)%Z then
        match s1 with
        | String b (String c (String d s4)) =>
            x ← continuation b; y ← continuation c; z ← continuation d;
            let cp := ((a - 240) * 262144 + x * 4096 + y * 64 + z)%Z in
            if (65536 <=? cp)%Z && (cp <=? 1114111)%Z
            then Some (cp, s4) else None
        | _ => None
        end
      else None
  end.

(** The number of bytes that encode a code point. *)
Definition width (cp : Z) : nat :=
  if (cp <? 128)%Z then 1
  else if (cp <? 2048)%Z then 2
  else if (cp <? 65536)%Z then 3
  else 4.

(** [b.decode('utf8')] succeeds: [b] is a sequence of well-formed
    characters. [skip] counts the bytes of the current character still to
    pass. *)
Fixpoint decodable_aux (skip : nat) (s : string) : bool :=
  match s with
  | "" => true
  | String _ s' =>
      match skip with
      | S k => decodable_aux k s'
      | O =>
          match next_char s with
          | Some (cp, _) => decodable_aux (width cp - 1) s'
          | None => false
          end
      end
  end.

Definition decodable (s : string) : bool := decodable_aux 0 s.

(** [chr(cp).isspace()]: the whitespace of [str.split()] and of [\s] in
    a pattern. *)
Definition is_space (cp : Z) : bool :=
  ((9 <=? cp)%Z && (cp <=? 13)%Z)
  || ((28 <=? cp)%Z && (cp <=? 32)%Z)
  || (cp =? 133)%Z || (cp =? 160)%Z || (cp =? 5760)%Z
  || ((8192 <=? cp)%Z && (cp <=? 8202)%Z)
  || (cp =? 8232)%Z || (cp =? 8233)%Z || (cp =? 8239)%Z
  || (cp =? 8287)%Z || (cp =? 12288)%Z.

(** The decimal digits of Unicode 14.0 (the table of CPython 3.11) come
    in runs of ten, valued 0 to 9: the zero of each run. *)
Definition decimal_zeros : list Z :=
  [48; 1632; 1776; 1984; 2406; 2534; 2662; 2790; 2918; 3046; 3174;
   3302; 3430; 3558; 3664; 3792; 3872; 4160; 4240; 6112; 6160; 6470;
   6608; 6784; 6800; 6992; 7088; 7232; 7248; 42528; 43216; 43264;
   43472; 43504; 43600; 44016; 65296; 66720; 68912; 69734; 69872;
   69942; 70096; 70384; 70736; 70864; 71248; 71360; 71472; 71904;
   72016; 72784; 73040; 73120; 92768; 92864; 93008; 120782; 120792;
   120802; 120812; 120822; 123200; 123632; 125264; 130032]%Z.

(** The value of a decimal digit: what [\d] matches and [int] reads. *)
Fixpoint decimal_in (zeros : list Z) (cp : Z) : option Z :=
  match zeros with
  | [] => None
  | z :: zeros' =>
      if (z <=? cp)%Z && (cp <? z + 10)%Z then Some (cp - z)%Z
      else decimal_in zeros' cp
  end.

Definition decimal_value (cp : Z) : option Z := decimal_in decimal_zeros cp.

(** The ASCII digits, [[0-9]] in a pattern. *)
Definition is_digit (c : ascii) : bool :=
  (48 <=? code c)%Z && (code c <=? 57)%Z.

Definition digit_of (d : Z) : ascii := ascii_of_N (Z.to_N (48 + d)).
Definition digit_val (c : ascii) : Z := (code c - 48)%Z.

(** The lowest [w] decimal digits of [n], most significant first:
    ["%0wd" % n] for [0 <= n < 10^w]. *)
Fixpoint zfill (w : nat) (n : Z) : string :=
  match w with
  | O => ""
  | S w' => zfill w' (n / 10) +:+ String (digit_of (n mod 10)) ""
  end.

(** [int(s)] for a string of ASCII digits, on top of [acc]. *)
Fixpoint int_of_digits (acc : Z) (s : string) : Z :=
  match s with
  | "" => acc
  | String c s' => int_of_digits (10 * acc + digit_val c) s'
  end.

(** At most [n] ASCII digits from the head of [s], as many as there are,
    and the rest. *)
Fixpoint take_digits (n : nat) (s : string) : string * string :=
  match n, s with
  | S n', String c s' =>
      if is_digit c
      then let '(d, r) := take_digits n' s' in (String c d, r)
      else ("", s)
  | _, _ => ("", s)
  end.

Fixpoint starts_with (p s : string) : bool :=
  match p, s with
  | "", _ => true
  | String a p', String b s' => if Ascii.eqb a b then starts_with p' s' else false
  | String _ _, "" => false
  end.

(** [s.split(sep)] for a non-empty separator: [skip] counts the characters
    of a separator occurrence still to drop, [cur] is the current piece
    reversed. *)
Fixpoint split_sep_aux (sep : string) (skip : nat) (cur : string) (s : string)
  : list string :=
  match s with
  | "" => [String.rev cur]
  | String c s' =>
      match skip with
      | S k => split_sep_aux sep k cur s'
      | O =>
          if starts_with sep s
          then String.rev cur :: split_sep_aux sep (String.length sep - 1) "" s'
          else split_sep_aux sep O (String c cur) s'
      end
  end.

Definition split_sep (sep s : string) : list string :=
  split_sep_aux sep 0 "" s.

(** The piece collected so far, when it is not empty. *)
Definition piece (cur : string) : list string :=
  match cur with
  | "" => []
  | _ => [String.rev cur]
  end.

(** [s.split()]: the maximal runs of characters that are not whitespace.
    [skip] counts the bytes of a whitespace character still to drop,
    [cur] is the current piece reversed. *)
Fixpoint split_ws_aux (skip : nat) (cur : string) (s : string) : list string :=
  match s with
  | "" => piece cur
  | String c s' =>
      match skip with
      | S k => split_ws_aux k cur s'
      | O =>
          match next_char s with
          | Some (cp, _) =>
              if is_space cp
              then (piece cur ++ split_ws_aux (width cp - 1) "" s')%list
              else split_ws_aux O (String c cur) s'
          | None => split_ws_aux O (String c cur) s'
          end
      end
  end.

Definition split_ws (s : string) : list string := split_ws_aux 0 "" s.

(** [sep.join(l)] *)
Fixpoint join (sep : string) (l : list string) : string :=
  match l with
  | [] => ""
  | [x] => x
  | x :: l' => x +:+ sep +:+ join sep l'
  end.

(** The lower case of an ASCII letter; other bytes are kept. *)
Definition lower_char (c : ascii) : ascii :=
  if (65 <=? code c)%Z && (code c <=? 90)%Z
  then ascii_of_N (Z.to_N (code c + 32)) else c.

(** [p] at the head of [s], compared without case: the rest of [s]. *)
Fixpoint strip_nocase (p s : string) : option string :=
  match p, s with
  | "", _ => Some s
  | String a p', String b s' =>
      if Ascii.eqb (lower_char a) (lower_char b) then strip_nocase p' s' else None
  | String _ _, "" => None
  end.

End Text.

(** ** [datetime]: the methods the sources call, after the Python library
    (CPython 3.11 on Linux) *)

Module Datetime.
Import Text.
Local Open Scope Z_scope.

Record t := mk {
  year : Z; month : Z; day : Z;
  hour : Z; minute : Z; second : Z; microsecond : Z
}.

Definition is_leap (y : Z) : bool :=
  (y mod 4 =? 0) && (negb (y mod 100 =? 0) || (y mod 400 =? 0)).

Definition days_in_month (y m : Z) : Z :=
  if m =? 2 then (if is_leap y then 29 else 28)
  else if (m =? 4) || (m =? 6) || (m =? 9) || (m =? 11) then 30
  else 31.

(** What the constructor [datetime(...)] accepts. *)
Definition valid (d : t) : bool :=
  (1 <=? year d) && (year d <=? 9999)
  && (1 <=? month d) && (month d <=? 12)
  && (1 <=? day d) && (day d <=? days_in_month (year d) (month d))
  && (0 <=? hour d) && (hour d <=? 23)
  && (0 <=? minute d) && (minute d <=? 59)
  && (0 <=? second d) && (second d <=? 59)
  && (0 <=? microsecond d) && (microsecond d <=? 999999).

(** Comparison of naive datetimes: field by field, most significant first. *)
Definition fields (d : t) : list Z :=
  [year d; month d; day d; hour d; minute d; second d; microsecond d].

Fixpoint lex_ltb (a b : list Z) : bool :=
  match a, b with
  | x :: a', y :: b' => (x <? y) || ((x =? y) && lex_ltb a' b')
  | [], _ :: _ => true
  | _, [] => false
  end.

Definition ltb (a b : t) : bool := lex_ltb (fields a) (fields b).
Definition gtb (a b : t) : bool := ltb b a.

(** *** ISO calendar ([_ymd2ord], [_isoweek1monday], [isocalendar]) *)

Definition days_before_year (y : Z) : Z :=
  let y' := y - 1 in y' * 365 + y' / 4 - y' / 100 + y' / 400.

Definition days_before_month (y m : Z) : Z :=
  nth (Z.to_nat m) [0; 0; 31; 59; 90; 120; 151; 181; 212; 243; 273; 304; 334] 0
  + (if (2 <? m) && is_leap y then 1 else 0).

Definition ymd2ord (y m d : Z) : Z :=
  days_before_year y + days_before_month y m + d.

Definition isoweek1monday (y : Z) : Z :=
  let firstday := ymd2ord y 1 1 in
  let firstweekday := (firstday + 6) mod 7 in
  let week1monday := firstday - firstweekday in
  if 3 <? firstweekday then week1monday + 7 else week1monday.

(** [d.isocalendar()] = (ISO year, ISO week number, ISO weekday) *)
Definition isocalendar (d : t) : Z * Z * Z :=
  let y := year d in
  let today := ymd2ord y (month d) (day d) in
  let week := (today - isoweek1monday y) / 7 in
  let wday := (today - isoweek1monday y) mod 7 in
  if week <? 0 then
    let w1 := isoweek1monday (y - 1) in
    (y - 1, (today - w1) / 7 + 1, (today - w1) mod 7 + 1)
  else if (52 <=? week) && (isoweek1monday (y + 1) <=? today) then
    (y + 1, 1, wday + 1)
  else (y, week + 1, wday + 1).

(** The microseconds from the start of year 1 to [d]: with the offset to
    UTC taken off, what the comparison of two aware datetimes compares. *)
Definition to_microseconds (d : t) : Z :=
  (((ymd2ord (year d) (month d) (day d) * 24 + hour d) * 60 + minute d) * 60
   + second d) * 1000000 + microsecond d.

(** *** Formatting *)

(** ["%Y"]: the year as the C library prints it, without padding. *)
Definition year_text (y : Z) : string :=
  if y <? 10 then zfill 1 y
  else if y <? 100 then zfill 2 y
  else if y <? 1000 then zfill 3 y
  else zfill 4 y.

(** [d.strftime("%Y-%m-%d" + sep + "%H:%M:%S")] *)
Definition strftime_seconds (sep : string) (d : t) : string :=
  year_text (year d) +:+ "-" +:+ zfill 2 (month d) +:+ "-" +:+ zfill 2 (day d)
  +:+ sep
  +:+ zfill 2 (hour d) +:+ ":" +:+ zfill 2 (minute d) +:+ ":" +:+ zfill 2 (second d).

(** [d.strftime("%Y-%m-%d" + sep + "%H:%M:%S.%f")] *)
Definition strftime_micro (sep : string) (d : t) : string :=
  strftime_seconds sep d +:+ "." +:+ zfill 6 (microsecond d).

(** *** Parsing: the patterns that [_strptime] compiles the directives
    to, matched as [re.match] does with [IGNORECASE]: the alternatives of
    a directive are tried in order, and the next one is taken when what
    follows does not match. *)

(** One character of a pattern: [[lo-hi]] (ASCII digits), [\d] (any
    decimal digit), or a space. *)
Inductive class :=
| Range (lo hi : Z)
| Digit
| Blank.

(** A character of the class at the head of [s]: the value read so far
    with the digit added (a space adds nothing, as [int] skips it), and
    the rest. *)
Definition take_class (c : class) (acc : Z) (s : string) : option (Z * string) :=
  match c with
  | Range lo hi =>
      match s with
      | String a r =>
          let v := digit_val a in
          if (lo <=? v) && (v <=? hi) then Some (10 * acc + v, r) else None
      | "" => None
      end
  | Digit =>
      '(cp, r) ← next_char s;
      v ← decimal_value cp;
      Some (10 * acc + v, r)
  | Blank =>
      match s with
      | String a r => if Ascii.eqb a " " then Some (acc, r) else None
      | "" => None
      end
  end.

Fixpoint take_alt (alt : list class) (acc : Z) (s : string) : option (Z * string) :=
  match alt with
  | [] => Some (acc, s)
  | c :: alt' => '(acc, r) ← take_class c acc s; take_alt alt' acc r
  end.

(** A directive followed by the rest of the pattern [k]. *)
Fixpoint directive {A} (alts : list (list class)) (k : Z → string → option A)
    (s : string) : option A :=
  match alts with
  | [] => None
  | alt :: alts' =>
      match take_alt alt 0 s ≫= (λ '(v, r), k v r) with
      | Some a => Some a
      | None => directive alts' k s
      end
  end.

(** [%Y]: [\d\d\d\d] *)
Definition pattern_Y : list (list class) := [[Digit; Digit; Digit; Digit]].
(** [%m]: [1[0-2]|0[1-9]|[1-9]] *)
Definition pattern_m : list (list class) :=
  [[Range 1 1; Range 0 2]; [Range 0 0; Range 1 9]; [Range 1 9]].
(** [%d]: [3[0-1]|[1-2]\d|0[1-9]|[1-9]| [1-9]] *)
Definition pattern_d : list (list class) :=
  [[Range 3 3; Range 0 1]; [Range 1 2; Digit]; [Range 0 0; Range 1 9];
   [Range 1 9]; [Blank; Range 1 9]].
(** [%H]: [2[0-3]|[0-1]\d|\d] *)
Definition pattern_H : list (list class) :=
  [[Range 2 2; Range 0 3]; [Range 0 1; Digit]; [Digit]].
(** [%M]: [[0-5]\d|\d] *)
Definition pattern_M : list (list class) := [[Range 0 5; Digit]; [Digit]].
(** [%S]: [6[0-1]|[0-5]\d|\d] *)
Definition pattern_S : list (list class) :=
  [[Range 6 6; Range 0 1]; [Range 0 5; Digit]; [Digit]].

(** A literal character of the format. *)
Definition literal (c : ascii) (s : string) : option string :=
  match s with
  | String c' s' =>
      if Ascii.eqb (lower_char c) (lower_char c') then Some s' else None
  | "" => None
  end.

(** [\s*] followed by [k]: the longest run of whitespace first. *)
Fixpoint spaces_star {A} (fuel : nat) (k : string → option A) (s : string)
  : option A :=
  match fuel with
  | O => k s
  | S fuel' =>
      match next_char s with
      | Some (cp, r) =>
          if is_space cp
          then match spaces_star fuel' k r with
               | Some a => Some a
               | None => k s
               end
          else k s
      | None => k s
      end
  end.

(** [\s+] followed by [k]: what a run of whitespace of the format is
    compiled to. *)
Definition spaces {A} (k : string → option A) (s : string) : option A :=
  '(cp, r) ← next_char s;
  if is_space cp then spaces_star (String.length r) k r else None.

(** The character of the format between the date and the time. *)
Definition separator {A} (c : ascii) (k : string → option A) (s : string)
  : option A :=
  if is_space (code c) then spaces k s else literal c s ≫= k.

(** [%f]: [[0-9]{1,6}]; the digits are padded with zeros on the right. *)
Definition fraction (s : string) : option (Z * string) :=
  let '(f, r) := take_digits 6 s in
  match f with
  | "" => None
  | _ => Some (int_of_digits 0 f * 10 ^ Z.of_nat (6 - String.length f), r)
  end.

Definition build (y m d H M S f : Z) : option t :=
  let r := mk y m d H M S f in
  if valid r then Some r else None.

(** ["%H:%M:%S"] followed by [k] *)
Definition clock {A} (k : Z → Z → Z → string → option A) (s : string)
  : option A :=
  directive pattern_H (λ H s,
    s ← literal ":" s;
    directive pattern_M (λ M s,
      s ← literal ":" s;
      directive pattern_S (λ Sec s, k H M Sec s) s) s) s.

(** [datetime.strptime(s, "%Y-%m-%d" + sep + "%H:%M:%S.%f")]: the match of
    the pattern, which must reach the end of [s]; the values are checked
    when the datetime is built. *)
Definition strptime_micro (sep : ascii) (s : string) : option t :=
  '(y, m, d, H, M, Sec, f, r) ←
    directive pattern_Y (λ y s,
      s ← literal "-" s;
      directive pattern_m (λ m s,
        s ← literal "-" s;
        directive pattern_d (λ d s,
          separator sep
            (clock (λ H M Sec s,
               s ← literal "." s;
               '(f, r) ← fraction s;
               Some (y, m, d, H, M, Sec, f, r))) s) s) s) s;
  if String.eqb r "" then build y m d H M Sec f else None.

Definition day_names : list string :=
  ["mon"; "tue"; "wed"; "thu"; "fri"; "sat"; "sun"].
Definition month_names : list string :=
  ["jan"; "feb"; "mar"; "apr"; "may"; "jun";
   "jul"; "aug"; "sep"; "oct"; "nov"; "dec"].

(** One of the names, followed by [k], which gets its position. *)
Fixpoint one_of {A} (names : list string) (i : Z) (k : Z → string → option A)
    (s : string) : option A :=
  match names with
  | [] => None
  | name :: names' =>
      match strip_nocase name s ≫= k i with
      | Some a => Some a
      | None => one_of names' (i + 1) k s
      end
  end.

(** [datetime.strptime(s, '%a %b %d %H:%M:%S %Y')] under the [en_US]
    locale; the weekday is not checked against the date. *)
Definition strptime_ctime (s : string) : option t :=
  '(y, m, d, H, M, Sec, r) ←
    one_of day_names 0 (λ _,
      spaces (one_of month_names 1 (λ m,
        spaces (directive pattern_d (λ d,
          spaces (clock (λ H M Sec,
            spaces (directive pattern_Y (λ y r,
              Some (y, m, d, H, M, Sec, r)))))))))) s;
  if String.eqb r "" then build y m d H M Sec 0 else None.

End Datetime.

(** ** Python values and exceptions *)

Module Py.

(** A two-dimensional [float64] array: [nrows * ncols] entries, row by row. *)
Record matrix := mk_matrix {
  nrows : nat;
  ncols : nat;
  mrows : list (list Q)
}.

(** A NumPy [ndarray] of floats. Two-dimensional arrays keep their rows;
    arrays of any other rank keep their shape and their entries in
    row-major order. *)
Inductive ndarray :=
| Array2 (m : matrix)
| ArrayN (sh : list nat) (flat : list Q).

Definition shape (a : ndarray) : list nat :=
  match a with
  | Array2 m => [nrows m; ncols m]
  | ArrayN sh _ => sh
  end.

Definition ndim (a : ndarray) : nat := length (shape a).

(** A two-dimensional [dtype=object] array, as [scipy.io.loadmat] returns
    for a MATLAB cell array of numeric matrices: every cell is a
    two-dimensional array. *)
Record objarray := mk_objarray {
  onrows : nat;
  oncols : nat;
  ocells : list (list matrix)
}.

(** The Python values the modules handle; [PyStrArray l] is the NumPy
    array [np.array(l)] of a list [l] of [str] (an array of numbers when
    [l] is empty);
    [PyDatetime] is a naive datetime, [PyAwareDatetime d off] one whose
    [tzinfo] is [timezone(timedelta(microseconds=off))]. *)
Inductive pyval :=
| PyNone
| PyInt (z : Z)
| PyFloat (q : Q)
| PyStr (s : string)
| PyBytes (s : string)
| PyDatetime (d : Datetime.t)
| PyAwareDatetime (d : Datetime.t) (utcoffset : Z)
| PyNdarray (a : ndarray)
| PyObjArray (o : objarray)
| PyStrArray (l : list string).

(** [type(v).__name__] *)
Definition type_name (v : pyval) : string :=
  match v with
  | PyNone => "NoneType"
  | PyInt _ => "int"
  | PyFloat _ => "float"
  | PyStr _ => "str"
  | PyBytes _ => "bytes"
  | PyDatetime _ | PyAwareDatetime _ _ => "datetime"
  | PyNdarray _ | PyObjArray _ | PyStrArray _ => "ndarray"
  end.

Definition is_None (v : pyval) : bool :=
  match v with PyNone => true | _ => false end.

(** [item.shape] when [type(item) is np.ndarray], nothing otherwise *)
Definition array_shape (v : pyval) : option (list nat) :=
  match v with
  | PyNdarray a => Some (shape a)
  | PyObjArray o => Some [onrows o; oncols o]
  | PyStrArray l => Some [length l]
  | _ => None
  end.

Inductive exn :=
(* OrbitData.__init__ *)
| TypeError_not_ndarray (name ty : string)
| ValueError_not_2_dimensional (name : string)
| ValueError_sample_number (name : string) (has other : nat)
(* loaders *)
| ValueError_version_not_set
| NotImplementedError_version (v : pyval)
| ValueError_key_missing (key : string)
(* Archiver.read *)
| TypeError_not_datetime
| ValueError_end_before_start
| ValueError_end_in_future
(* raised by NumPy: [np.load] of a pickled array without [allow_pickle],
   the truth value of an array of several entries *)
| ValueError_allow_pickle
| ValueError_ambiguous_truth
(* a naive datetime compared with an aware one *)
| TypeError_naive_aware
| UnicodeDecodeError
(* raised by the interpreter or by library calls *)
| KeyError (key : string)
| IndexError
| NameError (name : string)
| AttributeError (attr : string)
| ValueError_unpack
| ValueError_broadcast
| ValueError_strptime (text : string)
| ExternalError (what : string).

Inductive result (A : Type) :=
| Ok (a : A)
| Err (e : exn).
Arguments Ok {A} a.
Arguments Err {A} e.

Definition bind {A B} (r : result A) (k : A → result B) : result B :=
  match r with
  | Ok a => k a
  | Err e => Err e
  end.

Definition is_Ok {A} (r : result A) : bool :=
  match r with Ok _ => true | Err _ => false end.

(** [d[key]] on a dict *)
Definition getitem {V} (d : gmap string V) (key : string) : result V :=
  match d !! key with
  | Some v => Ok v
  | None => Err (KeyError key)
  end.

(** [for x in xs: body], the body threading a state and able to raise *)
Fixpoint for_each {X S} (xs : list X) (body : X → S → result S) (s : S)
  : result S :=
  match xs with
  | [] => Ok s
  | x :: xs' => bind (body x s) (for_each xs' body)
  end.

End Py.

Export Py.

#[global] Instance result_ret : MRet result := fun _ a => Ok a.
#[global] Instance result_bind : MBind result := fun _ _ k r => Py.bind r k.
#[global] Instance result_fmap : FMap result :=
  fun _ _ f r => Py.bind r (fun a => Ok (f a)).

(** ** NumPy: what depends on the installed release *)

Module Numpy.

Record t := mk {
  (** [np.load] called without [allow_pickle] unpickles an array of
      objects (the releases before 1.16.3) or refuses it. *)
  allow_pickle : bool;
  (** [if a == s] for an array [a] of numbers, of objects or without
      entries and a str [s]: the answer of the test, or the exception. *)
  eq_array : pyval → string → result bool
}.

End Numpy.

(** ** The orbit record ([io.py], class [OrbitData]) *)

Module OrbitData.

Record t := mk {
  BPMx : pyval;
  BPMy : pyval;
  CMx : pyval;
  CMy : pyval;
  sampling_frequency : pyval;
  sample_number : nat;
  measure_date : pyval
}.

(** The nested function [check_single_arrays]; [sample_nb] is the
    variable of the enclosing [__init__], which the nested function reads
    and never assigns. *)
Definition check_single_arrays (sample_nb : nat) (name : string)
    (item : pyval) : result unit :=
  if negb (is_None item) then Ok tt
  else
    match array_shape item with
    | None => Err (TypeError_not_ndarray name (type_name item))
    | Some sh =>
        if negb (length sh =? 2)%nat
        then Err (ValueError_not_2_dimensional name)
        else
          let n := nth 1 sh 0%nat in
          if negb (sample_nb =? 0)%nat && negb (sample_nb =? n)%nat
          then Err (ValueError_sample_number name n sample_nb)
          else Ok tt
    end.

(** [OrbitData.__init__] *)
Definition init (BPMx BPMy CMx CMy sampling_frequency measure_date : pyval)
  : result t :=
  let sample_nb := 0%nat in
  check_single_arrays sample_nb "BPMx" BPMx ;;
  check_single_arrays sample_nb "BPMy" BPMy ;;
  check_single_arrays sample_nb "CMx" CMx ;;
  check_single_arrays sample_nb "CMy" CMy ;;
  Ok (mk BPMx BPMy CMx CMy sampling_frequency sample_nb measure_date).

End OrbitData.

(** ** Two-dimensional array indexing, as NumPy does it *)

Module Np.

Definition matrix_wf (m : matrix) : Prop :=
  length (mrows m) = nrows m ∧ Forall (λ r, length r = ncols m) (mrows m).

(** [np.zeros((r, c))] *)
Definition zeros (r c : nat) : matrix :=
  mk_matrix r c (repeat (repeat 0%Q c) r).

(** [m[j, i]] *)
Definition getitem2 (m : matrix) (j i : nat) : result Q :=
  if (j <? nrows m)%nat && (i <? ncols m)%nat
  then match mrows m !! j ≫= (.!! i) with
       | Some x => Ok x
       | None => Err IndexError
       end
  else Err IndexError.

(** [m[j, i] = x] *)
Definition setitem2 (m : matrix) (j i : nat) (x : Q) : result matrix :=
  if (j <? nrows m)%nat && (i <? ncols m)%nat
  then Ok (mk_matrix (nrows m) (ncols m) (alter (<[i := x]>) j (mrows m)))
  else Err IndexError.

(** [m[:, i]], a one-dimensional array of [nrows m] entries *)
Definition column (m : matrix) (i : nat) : result (list Q) :=
  if (i <? ncols m)%nat
  then Ok ((λ r, default 0%Q (r !! i)) <$> mrows m)
  else Err IndexError.

(** [m[:, i] = v] for a one-dimensional [v]: the lengths must agree, or
    [v] has a single entry, which is then repeated. *)
Definition set_column (m : matrix) (i : nat) (v : list Q) : result matrix :=
  if (i <? ncols m)%nat then
    if (length v =? nrows m)%nat
    then Ok (mk_matrix (nrows m) (ncols m)
               (zip_with (λ r x, <[i := x]> r) (mrows m) v))
    else match v with
         | [x] => Ok (mk_matrix (nrows m) (ncols m) (<[i := x]> <$> mrows m))
         | _ => Err ValueError_broadcast
         end
  else Err IndexError.

(** [o[j, i]] on an object array *)
Definition cell (o : objarray) (j i : nat) : result matrix :=
  if (j <? onrows o)%nat && (i <? oncols o)%nat
  then match ocells o !! j ≫= (.!! i) with
       | Some c => Ok c
       | None => Err IndexError
       end
  else Err IndexError.

Definition objarray_wf (o : objarray) : Prop :=
  length (ocells o) = onrows o
  ∧ Forall (λ r, length r = oncols o ∧ Forall matrix_wf r) (ocells o).

End Np.

(** ** The measurement dump, as [scipy.io.loadmat] returns it

    Both [io.load_orbit_dump] and [matlab.load_timeanalys] start from the
    dict that [scipy.io.loadmat(filename)] returns; that dict is the input
    of the embedding. The four channel groups are looked up in it and
    indexed the same way by both loaders. *)

Module Dump.
Import Np.

(** [data[key].shape] *)
Definition shape_of (data : gmap string pyval) (key : string)
  : result (list nat) :=
  v ← getitem data key;
  match array_shape v with
  | Some sh => Ok sh
  | None => Err (AttributeError "shape")
  end.

(** [data[key][0, i]], which is an array when [data[key]] is a cell array
    and a scalar when it is numeric. *)
Definition cell_at (data : gmap string pyval) (key : string) (i : nat)
  : result (matrix + Q) :=
  v ← getitem data key;
  match v with
  | PyObjArray o => inl <$> cell o 0 i
  | PyNdarray (Array2 m) => inr <$> getitem2 m 0 i
  | PyNdarray (ArrayN _ _) | PyStrArray _ => Err IndexError
  | _ => Err (ExternalError "TypeError: not subscriptable")
  end.

(** [data[key][0, i].shape] *)
Definition cell_shape (data : gmap string pyval) (key : string) (i : nat)
  : result (list nat) :=
  c ← cell_at data key i;
  match c with
  | inl m => Ok [nrows m; ncols m]
  | inr _ => Ok []
  end.

(** [data[key][0, i][:, 0]] *)
Definition cell_column (data : gmap string pyval) (key : string) (i : nat)
  : result (list Q) :=
  c ← cell_at data key i;
  match c with
  | inl m => column m 0
  | inr _ => Err IndexError
  end.

(** [data[key][0, i][j, 0]] *)
Definition cell_entry (data : gmap string pyval) (key : string) (i j : nat)
  : result Q :=
  c ← cell_at data key i;
  match c with
  | inl m => getitem2 m j 0
  | inr _ => Err IndexError
  end.

End Dump.

(** ** [search_kicks/tools/io.py] *)

Module IO.
Import Np Dump.

(** [a, b = t] *)
Definition unpack2 (t : list nat) : result (nat * nat) :=
  match t with
  | [a; b] => Ok (a, b)
  | _ => Err ValueError_unpack
  end.

(** [l[i]] on a list *)
Definition index {A} (l : list A) (i : nat) : result A :=
  match l !! i with
  | Some x => Ok x
  | None => Err IndexError
  end.

(** [b.decode('utf8')] *)
Definition decode (b : string) : result string :=
  if Text.decodable b then Ok b else Err UnicodeDecodeError.

(** An entry of an array of str as NumPy holds it: the NUL characters at
    its end are padding and are not part of it. *)
Fixpoint rstrip_nul (s : string) : string :=
  match s with
  | "" => ""
  | String c s' =>
      let r := rstrip_nul s' in
      if Ascii.eqb c "000" && String.eqb r "" then "" else String c r
  end.

(** [if v == s] for a string literal [s] that does not end with NUL: the
    answer of the test. An array of str is compared entry by entry: one
    entry decides, several have no truth value. *)
Definition eq_str (np : Numpy.t) (v : pyval) (s : string) : result bool :=
  match v with
  | PyStr s' => Ok (String.eqb s' s)
  | PyStrArray [x] => Ok (String.eqb (rstrip_nul x) s)
  | PyStrArray (_ :: _ :: _) => Err ValueError_ambiguous_truth
  | PyStrArray [] | PyNdarray _ | PyObjArray _ => Numpy.eq_array np v s
  | PyNone | PyInt _ | PyFloat _ | PyBytes _
  | PyDatetime _ | PyAwareDatetime _ _ => Ok false
  end.

Definition strptime (parse : string → option Datetime.t) (v : pyval)
  : result Datetime.t :=
  match v with
  | PyStr s =>
      match parse s with
      | Some d => Ok d
      | None => Err (ValueError_strptime s)
      end
  | _ => Err (ExternalError "TypeError: strptime() argument 1 must be str")
  end.

(** [DATETIME_ISO = "%Y-%m-%dT%H:%M:%S.%f"] *)
Definition strftime_DATETIME_ISO : Datetime.t → string :=
  Datetime.strftime_micro "T".
Definition strptime_DATETIME_ISO : string → option Datetime.t :=
  Datetime.strptime_micro "T".

(** *** The array archive ([.npy])

    The file system is a map from paths to the saved contents; [np.save]
    of the one-element list [[data]] stores that list, as a pickled array
    of objects, and appends the suffix [.npy] to a file name that lacks
    it; [np.load] gives it back when it unpickles. *)

Definition npy_files := gmap string (list (gmap string pyval)).

Definition ends_with (suffix s : string) : bool :=
  Text.starts_with (String.rev suffix) (String.rev s).

Definition npy_path (filename : string) : string :=
  if ends_with ".npy" filename then filename else filename +:+ ".npy".

Definition np_save (fs : npy_files) (filename : string)
    (arr : list (gmap string pyval)) : npy_files :=
  <[npy_path filename := arr]> fs.

Definition np_load (np : Numpy.t) (fs : npy_files) (filename : string)
  : result (list (gmap string pyval)) :=
  match fs !! filename with
  | Some arr =>
      if Numpy.allow_pickle np then Ok arr else Err ValueError_allow_pickle
  | None => Err (ExternalError "FileNotFoundError")
  end.

(** [save_orbit_npy(filename, obj)] *)
Definition save_orbit_npy (fs : npy_files) (filename : string)
    (obj : OrbitData.t) : result npy_files :=
  let VERSION := "1.0" in
  date ← match OrbitData.measure_date obj with
          | PyDatetime d | PyAwareDatetime d _ => Ok (strftime_DATETIME_ISO d)
          | _ => Err (AttributeError "strftime")
          end;
  let data : gmap string pyval :=
    <["__version__" := PyStr VERSION]>
    (<["measure_date" := PyStr date]>
    (<["data_structure" := PyStr "array[item, time_sample]"]>
    (<["sampling_frequency" := OrbitData.sampling_frequency obj]>
    (<["CMy" := OrbitData.CMy obj]>
    (<["CMx" := OrbitData.CMx obj]>
    (<["BPMy" := OrbitData.BPMy obj]>
    (<["BPMx" := OrbitData.BPMx obj]> ∅))))))) in
  Ok (np_save fs filename [data]).

(** [load_orbit_npy(filename)] *)
Definition load_orbit_npy (np : Numpy.t) (fs : npy_files) (filename : string)
  : result OrbitData.t :=
  arr ← np_load np fs filename;
  data ← index arr 0;
  if negb (bool_decide (is_Some (data !! "__version__")))
  then Err ValueError_version_not_set
  else
    version ← getitem data "__version__";
    known ← eq_str np version "1.0";
    if (known : bool) then
      bpmx ← getitem data "BPMx";
      bpmy ← getitem data "BPMy";
      cmx ← getitem data "CMx";
      cmy ← getitem data "CMy";
      fs ← getitem data "sampling_frequency";
      date ← getitem data "measure_date";
      d ← strptime strptime_DATETIME_ISO date;
      OrbitData.init bpmx bpmy cmx cmy fs (PyDatetime d)
    else Err (NotImplementedError_version version).

(** *** The measurement dump ([.mat]) *)

(** [data['__header__'].decode('utf8').split('Created on: ')[1]], parsed
    with ['%a %b %d %H:%M:%S %Y'] *)
Definition creation_date (data : gmap string pyval) : result Datetime.t :=
  h ← getitem data "__header__";
  text ← match h with
          | PyBytes s => decode s
          | _ => Err (AttributeError "decode")
          end;
  date ← index (Text.split_sep "Created on: " text) 1;
  strptime Datetime.strptime_ctime (PyStr date).

Definition dump_keys : list string :=
  ["difforbitX"; "difforbitY"; "CMx"; "CMy"; "__version__"; "__header__"].

(** One turn of [for i in range(sample_nb)]: four column assignments. *)
Definition dump_column (data : gmap string pyval) (i : nat)
    (acc : matrix * matrix * matrix * matrix)
  : result (matrix * matrix * matrix * matrix) :=
  let '(BPMx, BPMy, CMx, CMy) := acc in
  v ← cell_column data "difforbitX" i;
  BPMx ← set_column BPMx i v;
  v ← cell_column data "difforbitY" i;
  BPMy ← set_column BPMy i v;
  v ← cell_column data "CMx" i;
  CMx ← set_column CMx i v;
  v ← cell_column data "CMy" i;
  CMy ← set_column CMy i v;
  Ok (BPMx, BPMy, CMx, CMy).

(** [load_orbit_dump(filename)], from the dict that [loadmat] returned.
    The warning printed when ['__version__'] is missing goes to standard
    output and changes nothing else. *)
Definition load_orbit_dump (np : Numpy.t) (data : gmap string pyval)
  : result OrbitData.t :=
  version ← getitem data "__version__";
  known ← eq_str np version "1.0";
  if negb known then Err (NotImplementedError_version version)
  else
    for_each dump_keys
      (λ key _, if bool_decide (is_Some (data !! key)) then Ok tt
                else Err (ValueError_key_missing key)) tt;;
    creation_date ← creation_date data;
    '(_, sample_nb) ← shape_of data "difforbitX" ≫= unpack2;
    '(BPMx_nb, _) ← cell_shape data "difforbitX" 0 ≫= unpack2;
    '(BPMy_nb, _) ← cell_shape data "difforbitY" 0 ≫= unpack2;
    '(CMx_nb, _) ← cell_shape data "CMx" 0 ≫= unpack2;
    '(CMy_nb, _) ← cell_shape data "CMy" 0 ≫= unpack2;
    let BPMx := zeros BPMx_nb sample_nb in
    let BPMy := zeros BPMy_nb sample_nb in
    let CMx := zeros CMx_nb sample_nb in
    let CMy := zeros CMy_nb sample_nb in
    '(BPMx, BPMy, CMx, CMy) ←
      for_each (seq 0 sample_nb) (dump_column data) (BPMx, BPMy, CMx, CMy);
    OrbitData.init (PyNdarray (Array2 BPMx)) (PyNdarray (Array2 BPMy))
      (PyNdarray (Array2 CMx)) (PyNdarray (Array2 CMy))
      (PyInt 150) (PyDatetime creation_date).

End IO.

(** ** [search_kicks/tools/io.py], class [Archiver] *)

Module Archiver.
Import IO.

(** One variable of the answer: the values and their timestamps. *)
Record series := mk_series {
  value : pyval;
  time : list Datetime.t
}.

Definition tab_newline : string := String "009" (String "010" "").

(** The body of [for line in datalist[:-1]]: tokens of the line, then the
    update of [values]; the lists of a variable grow at their end. *)
Definition add_line (line : string)
    (values : gmap string (list string * list Datetime.t))
  : result (gmap string (list string * list Datetime.t)) :=
  let l := Text.split_ws line in
  key ← index l 0;
  value ← index l 3;
  t ← strptime (Datetime.strptime_micro " ")
        (PyStr (Text.join " " (take 2 (drop 1 l))));
  let values :=
    if bool_decide (is_Some (values !! key)) then values
    else <[key := ([], [])]> values in
  Ok (alter (λ e, ((e.1 ++ [value])%list, (e.2 ++ [t])%list)) key values).

(** [filter_camonitor(data)] for the bytes [data] of the answer.
    [datalist[:-1]] drops the last piece; [np.array] of a list of [str]
    is an array of strings. *)
Definition filter_camonitor (data : string) : result (gmap string series) :=
  Py.bind (decode data) (λ text,
    let datalist := Text.split_sep tab_newline text in
    Py.bind (for_each (take (length datalist - 1) datalist) add_line ∅)
      (λ values, Ok ((λ e, mk_series (PyStrArray e.1) e.2) <$> values))).

Section Read.
(** The clock and the network are outside the program. *)
Variable now : Datetime.t.
Variable urlencode : list (string * pyval) → string.
Variable urlopen : string → result string.

Definition url : string :=
  "http://archiver.bessy.de/archive/cgi/CGIExport.cgi".

(** [type(v) is datetime]: the fields, and the offset of an aware one *)
Definition as_datetime (v : pyval) : option (Datetime.t * option Z) :=
  match v with
  | PyDatetime d => Some (d, None)
  | PyAwareDatetime d off => Some (d, Some off)
  | _ => None
  end.

(** [a > b] on datetimes: two naive ones by their fields, two aware ones
    by their times in UTC, and a naive with an aware one not at all. *)
Definition gt (a b : Datetime.t * option Z) : result bool :=
  match a.2, b.2 with
  | None, None => Ok (Datetime.gtb a.1 b.1)
  | Some off_a, Some off_b =>
      Ok (Datetime.to_microseconds b.1 - off_b
          <? Datetime.to_microseconds a.1 - off_a)%Z
  | _, _ => Err TypeError_naive_aware
  end.

(** [read] up to the dict of the query: [var] is a name or a list of
    names, [t1 = PyNone] is the default of the third argument. *)
Definition read_query (var : string + list string) (t0 t1 : pyval)
  : result (list (string * pyval)) :=
  let t1 := if is_None t1 then t0 else t1 in
  match as_datetime t0, as_datetime t1 with
  | Some t0, Some t1 =>
      before ← gt t0 t1;
      if (before : bool) then Err ValueError_end_before_start
      else
      future ← gt t1 (now, None);
      if (future : bool) then Err ValueError_end_in_future
      else
        let t0 := t0.1 in
        let t1 := t1.1 in
        let same_week :=
          ((Datetime.isocalendar now).1.2 =? (Datetime.isocalendar t0).1.2)%Z in
        let index :=
          if same_week then "/opt/Archive/current_week/index"
          else "/opt/Archive/master_index" in
        let var := match var with
                   | inl name => name
                   | inr names => Text.join (String "010" "") names
                   end in
        Ok [("INDEX", PyStr index);
            ("COMMAND", PyStr "camonitor");
            ("STRSTART", PyInt 1);
            ("STARTSTR", PyStr (Datetime.strftime_seconds " " t0));
            ("STREND", PyInt 1);
            ("ENDSTR", PyStr (Datetime.strftime_seconds " " t1));
            ("NAMES", PyStr var)]
  | _, _ => Err TypeError_not_datetime
  end.

(** [read(var, t0, t1)] *)
Definition read (var : string + list string) (t0 t1 : pyval)
  : result (gmap string series) :=
  data_dict ← read_query var t0 t1;
  let full_url := url +:+ "?" +:+ urlencode data_dict in
  response ← urlopen full_url;
  filter_camonitor response.

End Read.

End Archiver.

(** ** [search_kicks/tools/matlab.py] *)

Module Matlab.
Import Np Dump IO.

(** [for j in range(nb): M[j, i] = data[key][0, i][j, 0]] *)
Definition fill_column (data : gmap string pyval) (key : string)
    (nb i : nat) (M : matrix) : result matrix :=
  for_each (seq 0 nb)
    (λ j M, x ← cell_entry data key i j; setitem2 M j i x) M.

(** One turn of [for i in range(sample_nb)]: four inner loops. *)
Definition fill_sample (data : gmap string pyval)
    (BPMx_nb BPMy_nb CMx_nb CMy_nb i : nat)
    (acc : matrix * matrix * matrix * matrix)
  : result (matrix * matrix * matrix * matrix) :=
  let '(BPMx, BPMy, CMx, CMy) := acc in
  BPMx ← fill_column data "difforbitX" BPMx_nb i BPMx;
  BPMy ← fill_column data "difforbitY" BPMy_nb i BPMy;
  CMx ← fill_column data "CMx" CMx_nb i CMx;
  CMy ← fill_column data "CMy" CMy_nb i CMy;
  Ok (BPMx, BPMy, CMx, CMy).

(** [load_timeanalys(filename)], from the dict that [loadmat] returned *)
Definition load_timeanalys (data : gmap string pyval)
  : result (matrix * matrix * matrix * matrix) :=
  sample_nb ← shape_of data "difforbitX" ≫= (λ sh, index sh 1);
  BPMx_nb ← cell_shape data "difforbitX" 0 ≫= (λ sh, index sh 0);
  BPMy_nb ← cell_shape data "difforbitY" 0 ≫= (λ sh, index sh 0);
  CMx_nb ← cell_shape data "CMx" 0 ≫= (λ sh, index sh 0);
  CMy_nb ← cell_shape data "CMy" 0 ≫= (λ sh, index sh 0);
  let BPMx := zeros BPMx_nb sample_nb in
  let BPMy := zeros BPMy_nb sample_nb in
  let CMx := zeros CMx_nb sample_nb in
  let CMy := zeros CMy_nb sample_nb in
  for_each (seq 0 sample_nb)
    (fill_sample data BPMx_nb BPMy_nb CMx_nb CMy_nb) (BPMx, BPMy, CMx, CMy).

End Matlab.

(** ** [search_kicks/core/get_kick.py] *)

Module GetKick.
Import IO.
Local Open Scope Q_scope.

(** [x < y] on floats *)
Definition Qltb (x y : Q) : bool :=
  (Qnum x * Zpos (Qden y) <? Qnum y * Zpos (Qden x))%Z.

(** [int(x)]: the integer part, rounding toward zero *)
Definition int (x : Q) : Z := Z.quot (Qnum x) (Zpos (Qden x)).

(** [sum(l)] *)
Definition sum (l : list Q) : Q := foldl Qplus 0 l.

(** [l[i:i+n]] *)
Definition window {A} (i n : nat) (l : list A) : list A := take n (drop i l).

(** An arithmetic operation on two one-dimensional arrays: equal lengths,
    or one of them has a single entry, which is then repeated. *)
Definition broadcast (f : Q → Q → Q) (a b : list Q) : result (list Q) :=
  if (length a =? length b)%nat then Ok (zip_with f a b)
  else match a, b with
       | [x], _ => Ok (f x <$> b)
       | _, [y] => Ok ((λ x, f x y) <$> a)
       | _, _ => Err ValueError_broadcast
       end.

(** [np.argmin(l)]: the first position of the least entry *)
Fixpoint argmin_from (best : Q) (i_best i : nat) (l : list Q) : nat :=
  match l with
  | [] => i_best
  | x :: l' =>
      if Qltb x best then argmin_from x i (S i) l'
      else argmin_from best i_best (S i) l'
  end.

Definition argmin (l : list Q) : nat :=
  match l with
  | [] => 0%nat
  | x :: l' => argmin_from x 0 1 l'
  end.

(** The local variables that the loop of [get_kick] updates; [i_best] is
    unbound until the first turn. *)
Record locals := mk_locals {
  rms_tab : list Q;
  best_rms : Q;
  cos_coefficients : list (Q * Q);
  i_best : option nat
}.

Section GetKick.
(** [np.pi], [np.cos] and [search_kicks.tools.maths.fit_sine] are
    outside this module; [fit_sine] may raise. *)
Variable pi : Q.
Variable cos : Q → Q.
Variable fit_sine : list Q → list Q → result (Q * Q * Q).

Definition signal_exp (orbit : list Q) : list Q := orbit ++ orbit.
Definition phase_exp (phase : list Q) (tune : Q) : list Q :=
  phase ++ ((λ p, p + tune * 2 * pi) <$> phase).

(** The fit of window [i] and its sum of squared residuals. *)
Definition fit_window (orbit phase : list Q) (tune : Q) (i : nat)
  : result (Q * Q * Q) :=
  let bpm_nb := length orbit in
  let signal_t := window i bpm_nb (signal_exp orbit) in
  let phase_t := window i bpm_nb (phase_exp phase tune) in
  '(_, b, c) ← fit_sine signal_t phase_t;
  let y := (λ p, b * cos (c + p)) <$> phase_t in
  d ← broadcast Qminus y signal_t;
  let rms := sum ((λ e, e ^ 2) <$> d) in
  Ok (b, c, rms).

(** The body of [for i in range(bpm_nb)]. *)
Definition scan_step (orbit phase : list Q) (tune : Q) (i : nat)
    (st : locals) : result locals :=
  '(b, c, rms) ← fit_window orbit phase tune i;
  let cos_coefficients := (cos_coefficients st ++ [(b, c)])%list in
  let rms_tab := (rms_tab st ++ [rms])%list in
  if Qltb rms (best_rms st) || (i =? 0)%nat
  then Ok (mk_locals rms_tab rms cos_coefficients (Some i))
  else Ok (mk_locals rms_tab (best_rms st) cos_coefficients (i_best st)).

Definition scan (orbit phase : list Q) (tune : Q) : result locals :=
  for_each (seq 0 (length orbit)) (scan_step orbit phase tune)
    (mk_locals [] 0 [] None).

(** Lines 62 to 67: the kick phase from the winning fit. *)
Definition kick_phase_of (apriori_phase c tune : Q) : result Q :=
  let k := int ((apriori_phase + c) / pi + tune) in
  let solutions :=
    (λ n : Z, - c - pi * tune + inject_Z n * pi) <$> [k; (k + 1)%Z] in
  let idx := argmin (Qabs <$> ((λ s, s - apriori_phase) <$> solutions)) in
  index solutions idx.

(** [get_kick(orbit, phase, tune)] with [plot] and [error_curves] at
    their default [False]; with them set the function draws, and
    returns the same pair. *)
Definition get_kick (orbit phase : list Q) (tune : Q)
  : result (Q * (Q * Q)) :=
  let bpm_nb := length orbit in
  st ← scan orbit phase tune;
  i_best ← match i_best st with
            | Some i => Ok i
            | None => Err (NameError "i_best")
            end;
  '(b, c) ← index (cos_coefficients st) i_best;
  apriori_phase ← index phase i_best;
  kick_phase ← kick_phase_of apriori_phase c tune;
  coef ← index (cos_coefficients st) (i_best mod bpm_nb);
  Ok (kick_phase, coef).

(** *** The kick phase as the specification words it

    [k] is the floor of [(apriori_phase + c)/pi + tune]; of the two
    candidates the one closer to [apriori_phase] is the kick phase. *)
Definition spec_candidates (apriori_phase c tune : Q) : Q * Q :=
  let k := Qfloor ((apriori_phase + c) / pi + tune) in
  (- c - pi * tune + inject_Z k * pi,
   - c - pi * tune + inject_Z (k + 1) * pi).

Definition spec_is_kick_phase (apriori_phase c tune kick_phase : Q) : Prop :=
  let '(s0, s1) := spec_candidates apriori_phase c tune in
  (kick_phase == s0 ∨ kick_phase == s1)
  ∧ Qabs (kick_phase - apriori_phase) <= Qabs (s0 - apriori_phase)
  ∧ Qabs (kick_phase - apriori_phase) <= Qabs (s1 - apriori_phase).

End GetKick.

End GetKick.

(** ** [search_kicks/tools/matlab.py]: [save_timeanalys] *)

Module MatlabSave.
Import Np IO.




End MatlabSave.

(** * Definitions for the statements: readings of the claims, examples *)

Import Np Dump IO.
Local Open Scope list_scope.

Definition example_array : pyval :=
  PyNdarray (Array2 (mk_matrix 2 3 [[1; 2; 3]; [4; 5; 6]]%Q)).

Definition column_vector (l : list Q) : matrix :=
  mk_matrix (length l) 1 ((λ x, [x]) <$> l).

(** A cell array of shape (1, number of samples), one column per sample. *)
Definition cell_row (samples : list (list Q)) : pyval :=
  PyObjArray (mk_objarray 1 (length samples) [column_vector <$> samples]).

(** A dump of two samples: three horizontal and two vertical BPMs, one
    horizontal and two vertical correctors. *)
Definition example_dump : gmap string pyval :=
  <["__header__" := PyBytes "MATLAB 5.0 MAT-file, Platform: GLNX86, Created on: Mon May 30 16:30:30 2016"]>
  (<["__version__" := PyStr "1.0"]>
  (<["difforbitX" := cell_row [[1; 2; 3]; [4; 5; 6]]%Q]>
  (<["difforbitY" := cell_row [[7; 8]; [9; 10]]%Q]>
  (<["CMx" := cell_row [[11]; [12]]%Q]>
  (<["CMy" := cell_row [[13; 14]; [15; 16]]%Q]> ∅))))).

Definition week_number (d : Datetime.t) : Z := (Datetime.isocalendar d).1.2.
Definition iso_year (d : Datetime.t) : Z := (Datetime.isocalendar d).1.1.

Definition wednesday_2016 : Datetime.t := Datetime.mk 2016 6 1 12 0 0 0.
Definition wednesday_2015 : Datetime.t := Datetime.mk 2015 5 27 8 0 0 0.

(** The variable name, the value token and the timestamp that a line of
    the answer carries: first token, fourth token, second and third token
    read as a date. *)
Definition line_entry (line : string) : option (string * (string * Datetime.t)) :=
  let l := Text.split_ws line in
  key ← l !! 0%nat;
  value ← l !! 3%nat;
  t ← Datetime.strptime_micro " " (Text.join " " (take 2 (drop 1 l)));
  Some (key, (value, t)).

(** The pieces of the body that are read: all but the last. *)
Definition lines_of (data : string) : list string :=
  let datalist := Text.split_sep Archiver.tab_newline data in
  take (length datalist - 1) datalist.

(** Value token and timestamp of the lines of one variable, in order. *)
Fixpoint entries_named (name : string) (lines : list string)
  : list (string * Datetime.t) :=
  match lines with
  | [] => []
  | line :: lines' =>
      match line_entry line with
      | Some (k, e) =>
          if decide (k = name) then e :: entries_named name lines'
          else entries_named name lines'
      | None => entries_named name lines'
      end
  end.

(** What [values] holds for a name after more lines were read. *)
Definition extend (o : option (list string * list Datetime.t))
    (es : list (string * Datetime.t)) : option (list string * list Datetime.t) :=
  match o, es with
  | None, [] => None
  | _, _ => Some ((default ([], []) o).1 ++ es.*1, (default ([], []) o).2 ++ es.*2)
  end.

(** The claim's reading of the values: an array of numbers. *)
Definition is_numeric_array (v : pyval) : bool :=
  match v with
  | PyNdarray _ => true
  | _ => false
  end.

(** Two samples of one variable and one of another. *)
Definition example_body : string :=
  "BBQR:X:MAX1202:CH0 2016-05-30 16:30:29.000000 1.5" +:+ Archiver.tab_newline
  +:+ "MDIZ3T5G:current 2016-05-30 16:30:30.250000 298.7" +:+ Archiver.tab_newline
  +:+ "BBQR:X:MAX1202:CH0 2016-05-30 16:30:31.000000 2.5" +:+ Archiver.tab_newline.

Fixpoint all_digits (s : string) : bool :=
  match s with
  | "" => true
  | String c s' => Text.is_digit c && all_digits s'
  end.

(** The dict that [save_orbit_npy] stores. *)
Definition saved_dict (obj : OrbitData.t) (date : string) : gmap string pyval :=
  <["__version__" := PyStr "1.0"]>
  (<["measure_date" := PyStr date]>
  (<["data_structure" := PyStr "array[item, time_sample]"]>
  (<["sampling_frequency" := OrbitData.sampling_frequency obj]>
  (<["CMy" := OrbitData.CMy obj]>
  (<["CMx" := OrbitData.CMx obj]>
  (<["BPMy" := OrbitData.BPMy obj]>
  (<["BPMx" := OrbitData.BPMx obj]> ∅))))))).

Definition example_record : OrbitData.t :=
  OrbitData.mk example_array example_array example_array example_array
    (PyInt 150) 0 (PyDatetime (Datetime.mk 2016 5 30 16 30 30 123456)).

(** The same record dated in the year 999, and with a timestamp two
    hours east of UTC. *)
Definition early_record : OrbitData.t :=
  OrbitData.mk example_array example_array example_array example_array
    (PyInt 150) 0 (PyDatetime (Datetime.mk 999 5 30 16 30 30 123456)).
Definition aware_record : OrbitData.t :=
  OrbitData.mk example_array example_array example_array example_array
    (PyInt 150) 0
    (PyAwareDatetime (Datetime.mk 2016 5 30 16 30 30 123456) 7200000000).

(** Two releases of NumPy for the examples: [np.load] unpickles by
    default, or refuses to. No example compares an array with a str, so
    that comparison is given one answer for all. *)
Definition numpy_unpickling : Numpy.t := Numpy.mk true (λ _ _, Ok false).
Definition numpy_refusing : Numpy.t := Numpy.mk false (λ _ _, Ok false).

(** The first column of a cell, as [cell[:, 0]] gives it. *)
Definition cell_col (c : matrix) : list Q :=
  (λ r, default 0%Q (r !! 0%nat)) <$> mrows c.

(** A channel group of a well-formed dump with [S] samples and [nb]
    channels: a cell array with [S] columns, whose first row holds, for
    each sample, a column vector of [nb] entries. *)
Definition group_wf (data : gmap string pyval) (key : string) (S nb : nat) : Prop :=
  ∃ o row,
    data !! key = Some (PyObjArray o)
    ∧ (0 < onrows o)%nat ∧ oncols o = S
    ∧ ocells o !! 0%nat = Some row ∧ length row = S
    ∧ Forall (λ c, nrows c = nb ∧ ncols c = 1%nat ∧ matrix_wf c) row.

(** A well-formed dump: at least one sample, the four channel groups with
    the same number of samples, the version tag '1.0' and a header whose
    creation date parses. *)
Definition dump_wf (data : gmap string pyval) (S nbx nby ncx ncy : nat)
    (date : Datetime.t) : Prop :=
  (0 < S)%nat
  ∧ group_wf data "difforbitX" S nbx ∧ group_wf data "difforbitY" S nby
  ∧ group_wf data "CMx" S ncx ∧ group_wf data "CMy" S ncy
  ∧ data !! "__version__" = Some (PyStr "1.0")
  ∧ creation_date data = Ok date.

(** The shape that both readers keep for a group while they fill it. *)
Definition dims (nb S : nat) (M : matrix) : Prop :=
  nrows M = nb ∧ ncols M = S ∧ length (mrows M) = nb.

Definition dims4 (S nbx nby ncx ncy : nat)
    (acc : matrix * matrix * matrix * matrix) : Prop :=
  let '(X, Y, CX, CY) := acc in
  dims nbx S X ∧ dims nby S Y ∧ dims ncx S CX ∧ dims ncy S CY.

Import GetKick.

(** What holds of the local variables after the first [n] windows: the
    tables have one entry per window, and [i_best] is the first position of
    the least residual so far. *)
Definition scanned (pi : Q) (cos : Q → Q)
    (fit_sine : list Q → list Q → result (Q * Q * Q))
    (orbit phase : list Q) (tune : Q) (n : nat) (st : locals) : Prop :=
  length (rms_tab st) = n
  ∧ length (cos_coefficients st) = n
  ∧ (∀ j, (j < n)%nat →
       ∃ b c r, fit_window pi cos fit_sine orbit phase tune j = Ok (b, c, r)
              ∧ rms_tab st !! j = Some r
              ∧ cos_coefficients st !! j = Some (b, c))
  ∧ match i_best st with
    | None => n = 0%nat
    | Some i =>
        (i < n)%nat
        ∧ rms_tab st !! i = Some (best_rms st)
        ∧ (∀ j r, rms_tab st !! j = Some r → (best_rms st <= r)%Q)
        ∧ (∀ j r, (j < i)%nat → rms_tab st !! j = Some r → (best_rms st < r)%Q)
    end.

(** [np.pi], the double nearest to pi, as a fraction. *)
Definition np_pi : Q := 884279719003555 # 281474976710656.

(** Stand-ins for the examples: a polynomial for [np.cos], and a fit that
    always answers baseline 0, amplitude 1, offset 0. *)
Definition cos_poly (x : Q) : Q := 1 - x ^ 2 / 2 + x ^ 4 / 24.
Definition fit_unit (signal phase : list Q) : result (Q * Q * Q) :=
  Ok (0, 1, 0)%Q.

(** ** Further readings: the orbit record and the array archive *)

(** The name of the first channel group that is [None], if any. *)
Definition first_omitted (BPMx BPMy CMx CMy : pyval) : option string :=
  if is_None BPMx then Some "BPMx"
  else if is_None BPMy then Some "BPMy"
  else if is_None CMx then Some "CMx"
  else if is_None CMy then Some "CMy"
  else None.

(** The files after [example_record] was saved under the name "orbit". *)
Definition example_npy_files : npy_files :=
  <["orbit.npy" := [saved_dict example_record "2016-05-30T16:30:30.123456"]]> ∅.

(** ** Further readings: the arrays of a measurement dump *)


(** Row [j] of the array rebuilt from the first [n] cells, [S] samples
    wide: the entries [j] of their first columns, then zeros. *)
Definition rebuilt_row (S n : nat) (cells : list matrix) (j : nat) : list Q :=
  ((λ c, default 0%Q (cell_col c !! j)) <$> take n cells) ++ repeat 0%Q (S - n).

(** The array after the first [n] samples were assigned. *)
Definition rebuilt (nb S n : nat) (cells : list matrix) : matrix :=
  mk_matrix nb S (rebuilt_row S n cells <$> seq 0 nb).


(** The array with one column per cell: entry (j, i) is entry [j] of the
    first column of cell [i]. *)
Definition from_cells (nb : nat) (cells : list matrix) : matrix :=
  rebuilt nb (length cells) (length cells) cells.



(** ** Further readings: the last piece of the answer, the saved cells *)



(** * Properties *)

(** ** Generalities on [result] and [for_each] *)

Lemma bind_Ok {A B} (r : result A) (k : A → result B) (b : B) :
  r ≫= k = Ok b → ∃ a, r = Ok a ∧ k a = Ok b.
Proof. destruct r as [a|e]; [eauto | discriminate]. Qed.

Lemma bind_Ok_l {A B} (a : A) (k : A → result B) : Ok a ≫= k = k a.
Proof. reflexivity. Qed.

Lemma for_each_app {X S} (xs ys : list X) (body : X → S → result S) (s : S) :
  for_each (xs ++ ys) body s = for_each xs body s ≫= for_each ys body.
Proof.
  revert s. induction xs as [|x xs IH]; intros s; simpl; [done|].
  destruct (body x s) as [s'|e]; simpl; [apply IH | done].
Qed.

Lemma for_each_snoc {X S} (xs : list X) (x : X) (body : X → S → result S) (s : S) :
  for_each (xs ++ [x]) body s = for_each xs body s ≫= body x.
Proof.
  rewrite for_each_app. destruct (for_each xs body s) as [s'|e]; simpl; [|done].
  by destruct (body x s').
Qed.

(** Two loops over the same items agree when their bodies agree on the
    states of an invariant that both preserve. *)
Lemma for_each_agree {X S} (I : S → Prop) (xs : list X)
    (f g : X → S → result S) (s : S) :
  I s →
  (∀ x s, x ∈ xs → I s → ∃ s', f x s = Ok s' ∧ g x s = Ok s' ∧ I s') →
  ∃ s', for_each xs f s = Ok s' ∧ for_each xs g s = Ok s' ∧ I s'.
Proof.
  revert s. induction xs as [|x xs IH]; intros s Hs Hstep; simpl; [eauto|].
  destruct (Hstep x s) as (s1 & -> & -> & Hs1); [left | done |]. simpl.
  apply IH; [done|]. intros y t Hy. apply Hstep. by right.
Qed.

(** ** The orbit record *)

(** [check_single_arrays] looks at nothing but whether the item is
    [None]. *)
Lemma check_single_arrays_outcome sample_nb name item :
  OrbitData.check_single_arrays sample_nb name item
  = if is_None item then Err (TypeError_not_ndarray name "NoneType") else Ok tt.
Proof. by destruct item. Qed.

(** A provided item passes [check_single_arrays] unexamined. *)
Lemma check_single_arrays_provided sample_nb name item :
  item ≠ PyNone → OrbitData.check_single_arrays sample_nb name item = Ok tt.
Proof. by destruct item. Qed.

(** An omitted item is rejected for its type. *)
Lemma check_single_arrays_None sample_nb name :
  OrbitData.check_single_arrays sample_nb name PyNone
  = Err (TypeError_not_ndarray name "NoneType").
Proof. reflexivity. Qed.

Lemma init_provided x y cx cy sf date :
  x ≠ PyNone → y ≠ PyNone → cx ≠ PyNone → cy ≠ PyNone →
  OrbitData.init x y cx cy sf date = Ok (OrbitData.mk x y cx cy sf 0 date).
Proof.
  intros. unfold OrbitData.init.
  by rewrite !check_single_arrays_provided.
Qed.

(** The sample-count error is never raised, whatever is passed. *)
Lemma init_never_sample_number x y cx cy sf date name n other :
  OrbitData.init x y cx cy sf date ≠ Err (ValueError_sample_number name n other).
Proof.
  unfold OrbitData.init. rewrite !check_single_arrays_outcome.
  by destruct (is_None x), (is_None y), (is_None cx), (is_None cy).
Qed.

(** C1. Four two-dimensional arrays, [BPMx] and [BPMy] with 10 samples,
    [CMx] and [CMy] with 9: the constructor raises nothing and returns the
    record, where the claim asks for the sample-count error and no record.
    With only [BPMx] (10 samples) and [CMx] (9 samples) provided it does
    fail, but with the type error naming the omitted [BPMy]. *)
Theorem init_unequal_sample_counts (sf date : pyval) :
  let a10 := PyNdarray (Array2 (zeros 2 10)) in
  let a9 := PyNdarray (Array2 (zeros 3 9)) in
  OrbitData.init a10 a10 a9 a9 sf date
    = Ok (OrbitData.mk a10 a10 a9 a9 sf 0 date)
  ∧ OrbitData.init a10 PyNone a9 PyNone sf date
    = Err (TypeError_not_ndarray "BPMy" "NoneType").
Proof. split; reflexivity. Qed.

(** C9. Whenever the constructor returns a record, its [sample_number]
    is 0, whatever arrays were passed. *)
Theorem init_sample_number_0 (x y cx cy sf date : pyval) (r : OrbitData.t) :
  OrbitData.init x y cx cy sf date = Ok r → OrbitData.sample_number r = 0%nat.
Proof.
  unfold OrbitData.init. intros H.
  repeat (apply bind_Ok in H as ([] & _ & H)).
  by inversion H.
Qed.

Lemma init_sample_number_0_witness :
  let r := OrbitData.mk example_array example_array example_array
             example_array (PyInt 150) 0 PyNone in
  OrbitData.init example_array example_array example_array example_array
    (PyInt 150) PyNone = Ok r
  ∧ OrbitData.sample_number r = 0%nat.
Proof.
  split; [reflexivity|].
  apply (init_sample_number_0 example_array example_array example_array
           example_array (PyInt 150) PyNone).
  reflexivity.
Defined.

(** ** The measurement-dump loader: required keys *)

Lemma dump_keys_check_ok (data : gmap string pyval) (keys : list string) :
  Forall (λ k, is_Some (data !! k)) keys →
  for_each keys
    (λ key _, if bool_decide (is_Some (data !! key)) then Ok tt
              else Err (ValueError_key_missing key)) tt = Ok tt.
Proof.
  induction 1 as [|k keys Hk _ IH]; simpl; [done|].
  by rewrite bool_decide_eq_true_2.
Qed.

Lemma dump_keys_check_missing (data : gmap string pyval) (before after : list string) key :
  Forall (λ k, is_Some (data !! k)) before →
  data !! key = None →
  for_each (before ++ key :: after)
    (λ key _, if bool_decide (is_Some (data !! key)) then Ok tt
              else Err (ValueError_key_missing key)) tt
  = Err (ValueError_key_missing key).
Proof.
  intros Hb Hk. rewrite for_each_app, dump_keys_check_ok by done. simpl.
  rewrite bool_decide_eq_false_2; [done|]. rewrite Hk. by intros [? ?].
Qed.

(** With the version tag present and equal to '1.0', the first absent key
    of the list is the one the error names. *)
Lemma load_orbit_dump_missing_key (np : Numpy.t) (data : gmap string pyval)
    before key after :
  dump_keys = before ++ key :: after →
  data !! "__version__" = Some (PyStr "1.0") →
  Forall (λ k, is_Some (data !! k)) before →
  data !! key = None →
  load_orbit_dump np data = Err (ValueError_key_missing key).
Proof.
  intros Hkeys Hv Hb Hk. unfold load_orbit_dump, getitem.
  rewrite Hv, bind_Ok_l.
  change (eq_str np (PyStr "1.0") "1.0") with (Ok true).
  rewrite bind_Ok_l. cbn [negb].
  rewrite Hkeys.
  by rewrite dump_keys_check_missing.
Qed.

(** A version tag other than '1.0' is reported before any key is looked
    for. *)
Lemma load_orbit_dump_other_version (np : Numpy.t) (data : gmap string pyval) v :
  data !! "__version__" = Some v → eq_str np v "1.0" = Ok false →
  load_orbit_dump np data = Err (NotImplementedError_version v).
Proof.
  intros Hv Hne. unfold load_orbit_dump, getitem.
  by rewrite Hv, bind_Ok_l, Hne, bind_Ok_l.
Qed.

(** C4. A dump without the key [__version__] makes the loader fail with
    the [KeyError] of the lookup [data['__version__']], not with the
    error that names a missing key: the version comparison comes before
    the loop over the required keys. *)
Theorem load_orbit_dump_no_version (np : Numpy.t) (data : gmap string pyval) :
  data !! "__version__" = None →
  load_orbit_dump np data = Err (KeyError "__version__")
  ∧ load_orbit_dump np data ≠ Err (ValueError_key_missing "__version__").
Proof.
  intros Hv. unfold load_orbit_dump, getitem. rewrite Hv. by split.
Qed.

Lemma load_orbit_dump_no_version_witness :
  delete "__version__" example_dump !! "__version__" = None
  ∧ load_orbit_dump numpy_unpickling (delete "__version__" example_dump)
    = Err (KeyError "__version__").
Proof.
  split; [reflexivity|].
  apply (load_orbit_dump_no_version numpy_unpickling
           (delete "__version__" example_dump)).
  reflexivity.
Defined.

(** The same dump without [CMy] is refused with the error naming [CMy]. *)
Example load_orbit_dump_no_CMy :
  load_orbit_dump numpy_unpickling (delete "CMy" example_dump)
  = Err (ValueError_key_missing "CMy").
Proof. reflexivity. Qed.

(** ** The archiver client: choice of the index *)

(** The index of a query that [read] builds depends on the two week
    numbers alone. *)
Lemma read_query_index now var t0 t1 q :
  Archiver.read_query now var (PyDatetime t0) t1 = Ok q →
  head q = Some ("INDEX",
                 PyStr (if (week_number now =? week_number t0)%Z
                        then "/opt/Archive/current_week/index"
                        else "/opt/Archive/master_index")).
Proof.
  unfold Archiver.read_query, week_number. intros H.
  destruct (Archiver.as_datetime (if is_None t1 then PyDatetime t0 else t1))
    as [t1'|]; cbn [Archiver.as_datetime] in H; [|discriminate].
  apply bind_Ok in H as (before & _ & H).
  destruct before; [discriminate|].
  apply bind_Ok in H as (future & _ & H).
  destruct future; [discriminate|].
  by inversion H.
Qed.

(** C5. On Wednesday 1 June 2016 (ISO week 22 of 2016), a query that
    starts on Wednesday 27 May 2015 (ISO week 22 of 2015) is sent to the
    "current week" index: only the week numbers are compared, not the
    years. *)
Theorem read_query_other_year :
  iso_year wednesday_2015 ≠ iso_year wednesday_2016
  ∧ week_number wednesday_2015 = week_number wednesday_2016
  ∧ Archiver.read_query wednesday_2016 (inl "ddd") (PyDatetime wednesday_2015) PyNone
    = Ok [("INDEX", PyStr "/opt/Archive/current_week/index");
          ("COMMAND", PyStr "camonitor");
          ("STRSTART", PyInt 1);
          ("STARTSTR", PyStr "2015-05-27 08:00:00");
          ("STREND", PyInt 1);
          ("ENDSTR", PyStr "2015-05-27 08:00:00");
          ("NAMES", PyStr "ddd")].
Proof. split; [|split]; [by vm_compute | reflexivity | reflexivity]. Qed.

(** ** The archiver client: the answer *)

Lemma add_line_entry line k x t (values : gmap string (list string * list Datetime.t)) :
  line_entry line = Some (k, (x, t)) →
  Archiver.add_line line values
  = Ok (<[k := ((default ([], []) (values !! k)).1 ++ [x],
                (default ([], []) (values !! k)).2 ++ [t])]> values).
Proof.
  unfold line_entry, Archiver.add_line, index, strptime. intros H.
  destruct (Text.split_ws line !! 0%nat) as [k'|]; simpl in H; [|discriminate].
  destruct (Text.split_ws line !! 3%nat) as [x'|]; simpl in H; [|discriminate].
  destruct (Datetime.strptime_micro _ _) as [t'|]; simpl in H; [|discriminate].
  inversion H; subst k' x' t'; clear H. simpl. f_equal.
  apply map_eq; intros j. case_bool_decide as Hk.
  - destruct Hk as [e He]. rewrite He. simpl.
    rewrite lookup_alter, lookup_insert. case_decide; subst; [|done].
    by rewrite He.
  - assert (values !! k = None) as He.
    { destruct (values !! k) eqn:E; [|done]. exfalso. apply Hk. eauto. }
    rewrite He. simpl.
    rewrite lookup_alter, !lookup_insert. case_decide; subst; simpl; [|done].
    by rewrite decide_True.
Qed.

Lemma extend_nil o : extend o [] = o.
Proof. destruct o as [[vs ts]|]; simpl; [|done]. by rewrite !app_nil_r. Qed.

Lemma for_each_add_line lines (values : gmap string (list string * list Datetime.t)) :
  Forall (λ l, is_Some (line_entry l)) lines →
  ∃ values', for_each lines Archiver.add_line values = Ok values'
    ∧ ∀ name, values' !! name = extend (values !! name) (entries_named name lines).
Proof.
  intros Hwf. revert values.
  induction Hwf as [|line lines [[k [x t]] Hl] _ IH]; intros values.
  - exists values. split; [done|]. intros name. simpl. by rewrite extend_nil.
  - simpl. rewrite (add_line_entry _ _ _ _ _ Hl). simpl.
    destruct (IH (<[k := ((default ([], []) (values !! k)).1 ++ [x],
                          (default ([], []) (values !! k)).2 ++ [t])]> values))
      as (values' & -> & Hlook).
    exists values'. split; [done|]. intros name.
    cbn [entries_named]. rewrite Hlook, Hl, lookup_insert. clear Hlook.
    destruct (decide (k = name)) as [->|Hne].
    + destruct (values !! name) as [[vs ts]|], (entries_named name lines);
        simpl; by rewrite <- ?app_assoc.
    + done.
Qed.

(** C6, as amended. When the body is UTF-8 text and every line that is
    read has its four tokens and a date that parses, the parser returns,
    for each variable name of the answer, the value tokens of its lines
    as an array of strings (the text is not converted to numbers) and, in
    the same order and number, the parsed timestamps; a name that no line
    carries is absent. *)
Theorem filter_camonitor_series (data : string) :
  Text.decodable data = true →
  Forall (λ l, is_Some (line_entry l)) (lines_of data) →
  ∃ m, Archiver.filter_camonitor data = Ok m
    ∧ ∀ name,
        m !! name =
          match entries_named name (lines_of data) with
          | [] => None
          | es => Some (Archiver.mk_series (PyStrArray es.*1) es.*2)
          end
        ∧ length (entries_named name (lines_of data)).*1
          = length (entries_named name (lines_of data)).*2.
Proof.
  intros Hdec Hwf. unfold Archiver.filter_camonitor, decode.
  rewrite Hdec. cbn [Py.bind].
  destruct (for_each_add_line _ ∅ Hwf) as (values' & Hrun & Hlook).
  unfold lines_of in Hrun. rewrite Hrun. simpl.
  eexists; split; [done|]. intros name. split.
  - rewrite lookup_fmap, Hlook, lookup_empty.
    by destruct (entries_named name (lines_of data)).
  - by rewrite !length_fmap.
Qed.

Lemma filter_camonitor_series_witness :
  Text.decodable example_body = true
  ∧ Forall (λ l, is_Some (line_entry l)) (lines_of example_body)
  ∧ ∃ m, Archiver.filter_camonitor example_body = Ok m
      ∧ ∀ name,
          m !! name =
            match entries_named name (lines_of example_body) with
            | [] => None
            | es => Some (Archiver.mk_series (PyStrArray es.*1) es.*2)
            end
          ∧ length (entries_named name (lines_of example_body)).*1
            = length (entries_named name (lines_of example_body)).*2.
Proof.
  assert (Forall (λ l, is_Some (line_entry l)) (lines_of example_body)) as Hwf.
  { set (l := lines_of example_body). vm_compute in l. subst l.
    repeat (constructor; [vm_compute; eexists; reflexivity|]).
    constructor. }
  split; [reflexivity|]. split; [exact Hwf|].
  exact (filter_camonitor_series example_body eq_refl Hwf).
Defined.

(** C6, as written, fails: the values of a variable come back as the
    array of the text tokens ["1.5"] and ["2.5"], which is not an array of
    numbers. *)
Lemma filter_camonitor_values_are_text :
  ∃ m s, Archiver.filter_camonitor example_body = Ok m
    ∧ m !! "BBQR:X:MAX1202:CH0" = Some s
    ∧ Archiver.value s = PyStrArray ["1.5"; "2.5"]
    ∧ is_numeric_array (Archiver.value s) = false.
Proof.
  assert (match Archiver.filter_camonitor example_body with
          | Ok m => m !! "BBQR:X:MAX1202:CH0"
          | Err _ => None
          end
          = Some (Archiver.mk_series (PyStrArray ["1.5"; "2.5"])
                    [Datetime.mk 2016 5 30 16 30 29 0;
                     Datetime.mk 2016 5 30 16 30 31 0])) as Hs
    by (vm_compute; reflexivity).
  destruct (Archiver.filter_camonitor example_body) as [m|e]; [|discriminate].
  eexists m, _. split; [done|]. split; [exact Hs|]. by split.
Qed.

(** ** Timestamps: printing and reading back *)

Section Digits.
Import Text.
Local Open Scope Z_scope.

Lemma string_app_nil (s : string) : "" +:+ s = s.
Proof. reflexivity. Qed.

Lemma string_app_cons (x : ascii) (a b : string) :
  String x a +:+ b = String x (a +:+ b).
Proof. reflexivity. Qed.

Lemma string_app_assoc (a b c : string) : (a +:+ b) +:+ c = a +:+ (b +:+ c).
Proof.
  induction a as [|x a IH]; [done|].
  by rewrite !string_app_cons, IH.
Qed.

Lemma string_length_app (a b : string) :
  String.length (a +:+ b) = (String.length a + String.length b)%nat.
Proof.
  induction a as [|x a IH]; [done|].
  rewrite string_app_cons. simpl. by rewrite IH.
Qed.

Lemma digit_cases d :
  0 <= d < 10 →
  d = 0 ∨ d = 1 ∨ d = 2 ∨ d = 3 ∨ d = 4 ∨ d = 5 ∨ d = 6 ∨ d = 7 ∨ d = 8 ∨ d = 9.
Proof. lia. Qed.

Lemma digit_of_spec d :
  0 <= d < 10 → is_digit (digit_of d) = true ∧ digit_val (digit_of d) = d.
Proof.
  intros Hd. pose proof (digit_cases d Hd) as Hcases.
  repeat destruct Hcases as [-> | Hcases]; try subst d; by vm_compute.
Qed.

(** A printed digit, read by a character class of a pattern. *)
Lemma take_class_digit_of c acc d r :
  0 <= d < 10 →
  Datetime.take_class c acc (String (digit_of d) r)
  = match c with
    | Datetime.Range lo hi =>
        if (lo <=? d) && (d <=? hi) then Some (10 * acc + d, r) else None
    | Datetime.Digit => Some (10 * acc + d, r)
    | Datetime.Blank => None
    end.
Proof.
  intros Hd. pose proof (digit_cases d Hd) as Hcases.
  repeat destruct Hcases as [-> | Hcases]; try subst d; by destruct c.
Qed.

Lemma all_digits_app a b : all_digits (a +:+ b) = all_digits a && all_digits b.
Proof.
  induction a as [|x a IH]; [done|].
  rewrite string_app_cons. simpl. by rewrite IH, andb_assoc.
Qed.

Lemma int_of_digits_app acc a b :
  int_of_digits acc (a +:+ b) = int_of_digits (int_of_digits acc a) b.
Proof.
  revert acc. induction a as [|x a IH]; intros acc; [done|].
  rewrite string_app_cons. simpl. apply IH.
Qed.

Lemma take_digits_all n s :
  all_digits s = true → (String.length s ≤ n)%nat → take_digits n s = (s, "").
Proof.
  revert n. induction s as [|c s IH]; intros n Hs Hn.
  - by destruct n.
  - simpl in Hs. apply andb_prop in Hs as [Hc Hs].
    destruct n as [|n]; simpl in Hn; [lia|].
    simpl. rewrite Hc, IH; [done | done | lia].
Qed.

Lemma zfill_length w n : String.length (zfill w n) = w.
Proof.
  revert n. induction w as [|w IH]; intros n; simpl; [done|].
  rewrite string_length_app, IH. simpl. lia.
Qed.

Lemma zfill_digits w n : all_digits (zfill w n) = true.
Proof.
  revert n. induction w as [|w IH]; intros n; simpl; [done|].
  rewrite all_digits_app, IH. simpl.
  destruct (digit_of_spec (n mod 10)) as [-> _]; [|done].
  apply Z.mod_pos_bound. lia.
Qed.

Lemma zfill_value w n acc :
  int_of_digits acc (zfill w n) = acc * 10 ^ Z.of_nat w + n mod 10 ^ Z.of_nat w.
Proof.
  revert n acc. induction w as [|w IH]; intros n acc.
  - simpl. rewrite Z.mod_1_r. lia.
  - cbn [zfill]. rewrite int_of_digits_app, IH. simpl int_of_digits.
    destruct (digit_of_spec (n mod 10)) as [_ ->];
      [apply Z.mod_pos_bound; lia|].
    rewrite Nat2Z.inj_succ, Z.pow_succ_r by lia.
    rewrite (Z.rem_mul_r n 10 (10 ^ Z.of_nat w)); [lia | lia |].
    apply Z.pow_pos_nonneg; lia.
Qed.

(** The two digits of [zfill 2 n]. *)
Lemma zfill_2 n r :
  zfill 2 n +:+ r
  = String (digit_of ((n / 10) mod 10)) (String (digit_of (n mod 10)) r).
Proof. reflexivity. Qed.

Lemma zfill_4 n r :
  zfill 4 n +:+ r
  = String (digit_of ((n / 10 / 10 / 10) mod 10))
      (String (digit_of ((n / 10 / 10) mod 10))
         (String (digit_of ((n / 10) mod 10))
            (String (digit_of (n mod 10)) r))).
Proof. reflexivity. Qed.

Lemma days_in_month_le y m : Datetime.days_in_month y m <= 31.
Proof.
  unfold Datetime.days_in_month.
  repeat match goal with |- context [if ?b then _ else _] => destruct b end; lia.
Qed.

Lemma valid_ranges d :
  Datetime.valid d = true →
  1 <= Datetime.year d <= 9999 ∧ 1 <= Datetime.month d <= 12
  ∧ 1 <= Datetime.day d <= 31 ∧ 0 <= Datetime.hour d <= 23
  ∧ 0 <= Datetime.minute d <= 59 ∧ 0 <= Datetime.second d <= 59
  ∧ 0 <= Datetime.microsecond d < 10 ^ 6.
Proof.
  unfold Datetime.valid. rewrite !andb_true_iff, !Z.leb_le.
  pose proof (days_in_month_le (Datetime.year d) (Datetime.month d)). lia.
Qed.

Lemma literal_same c s : Datetime.literal c (String c s) = Some s.
Proof. unfold Datetime.literal. by rewrite Ascii.eqb_refl. Qed.

(** Reading the digits that [zfill] printed. *)
Ltac read_digits :=
  repeat first
    [ rewrite take_class_digit_of by first [lia | apply Z.mod_pos_bound; lia]
    | progress cbn [Datetime.directive Datetime.take_alt mbind option_bind] ].

Ltac decide_range :=
  repeat match goal with
         | |- context [(?a <=? ?b)] => destruct (Z.leb_spec a b); try lia
         end;
  cbn [andb mbind option_bind].

Section Directives.
Context {A : Type} (k : Z → string → option A) (r : string) (a : A).

Lemma directive_Y_zfill n :
  0 <= n <= 9999 → k n r = Some a →
  Datetime.directive Datetime.pattern_Y k (zfill 4 n +:+ r) = Some a.
Proof.
  intros Hn Hk. rewrite zfill_4. unfold Datetime.pattern_Y. read_digits.
  replace (10 * (10 * (10 * (10 * 0 + n / 10 / 10 / 10 mod 10)
             + n / 10 / 10 mod 10) + n / 10 mod 10) + n mod 10) with n
    by (Z.div_mod_to_equations; lia).
  by rewrite Hk.
Qed.

Lemma two_digits n :
  0 <= n <= 99 → 10 * (10 * 0 + n / 10 mod 10) + n mod 10 = n.
Proof. intros Hn. Z.div_mod_to_equations; lia. Qed.

Lemma directive_m_zfill n :
  1 <= n <= 12 → k n r = Some a →
  Datetime.directive Datetime.pattern_m k (zfill 2 n +:+ r) = Some a.
Proof.
  intros Hn Hk. rewrite zfill_2. unfold Datetime.pattern_m.
  assert (n / 10 mod 10 = 0 ∧ 1 <= n mod 10 ∨ n / 10 mod 10 = 1 ∧ n mod 10 <= 2)
    as [[Ha Hb]|[Ha Hb]] by (Z.div_mod_to_equations; lia);
    pose proof (two_digits n ltac:(lia)) as Hv; rewrite Ha in *;
    pose proof (Z.mod_pos_bound n 10 ltac:(lia));
    read_digits; decide_range; read_digits; decide_range;
    by rewrite ?Hv, Hk.
Qed.

Lemma directive_d_zfill n :
  1 <= n <= 31 → k n r = Some a →
  Datetime.directive Datetime.pattern_d k (zfill 2 n +:+ r) = Some a.
Proof.
  intros Hn Hk. rewrite zfill_2. unfold Datetime.pattern_d.
  assert (n / 10 mod 10 = 0 ∧ 1 <= n mod 10 ∨ n / 10 mod 10 = 1
          ∨ n / 10 mod 10 = 2 ∨ n / 10 mod 10 = 3 ∧ n mod 10 <= 1)
    as [[Ha Hb]|[Ha|[Ha|[Ha Hb]]]] by (Z.div_mod_to_equations; lia);
    pose proof (two_digits n ltac:(lia)) as Hv; rewrite Ha in *;
    pose proof (Z.mod_pos_bound n 10 ltac:(lia));
    read_digits; decide_range; read_digits; decide_range;
    read_digits; decide_range; by rewrite ?Hv, Hk.
Qed.

Lemma directive_H_zfill n :
  0 <= n <= 23 → k n r = Some a →
  Datetime.directive Datetime.pattern_H k (zfill 2 n +:+ r) = Some a.
Proof.
  intros Hn Hk. rewrite zfill_2. unfold Datetime.pattern_H.
  assert (n / 10 mod 10 = 0 ∨ n / 10 mod 10 = 1
          ∨ n / 10 mod 10 = 2 ∧ n mod 10 <= 3)
    as [Ha|[Ha|[Ha Hb]]] by (Z.div_mod_to_equations; lia);
    pose proof (two_digits n ltac:(lia)) as Hv; rewrite Ha in *;
    pose proof (Z.mod_pos_bound n 10 ltac:(lia));
    read_digits; decide_range; read_digits; decide_range;
    by rewrite ?Hv, Hk.
Qed.

Lemma directive_M_zfill n :
  0 <= n <= 59 → k n r = Some a →
  Datetime.directive Datetime.pattern_M k (zfill 2 n +:+ r) = Some a.
Proof.
  intros Hn Hk. rewrite zfill_2. unfold Datetime.pattern_M.
  pose proof (two_digits n ltac:(lia)) as Hv.
  assert (0 <= n / 10 mod 10 <= 5) by (Z.div_mod_to_equations; lia).
  read_digits; decide_range. read_digits. by rewrite Hv, Hk.
Qed.

Lemma directive_S_zfill n :
  0 <= n <= 59 → k n r = Some a →
  Datetime.directive Datetime.pattern_S k (zfill 2 n +:+ r) = Some a.
Proof.
  intros Hn Hk. rewrite zfill_2. unfold Datetime.pattern_S.
  pose proof (two_digits n ltac:(lia)) as Hv.
  assert (0 <= n / 10 mod 10 <= 5) by (Z.div_mod_to_equations; lia).
  read_digits; decide_range. read_digits; decide_range. read_digits.
  by rewrite Hv, Hk.
Qed.

End Directives.

Lemma fraction_zfill n :
  0 <= n < 10 ^ 6 → Datetime.fraction (zfill 6 n) = Some (n, "").
Proof.
  intros Hn. unfold Datetime.fraction.
  rewrite take_digits_all by (apply zfill_digits || by rewrite zfill_length).
  pose proof (zfill_length 6 n) as Hlen. pose proof (zfill_value 6 n 0) as Hval.
  destruct (zfill 6 n) as [|c s]; [discriminate|].
  rewrite Hval, Hlen, Z.mod_small by done. simpl. do 2 f_equal. lia.
Qed.

Lemma year_text_4 y : 1000 <= y → Datetime.year_text y = zfill 4 y.
Proof.
  intros Hy. unfold Datetime.year_text.
  destruct (Z.ltb_spec y 10); [lia|]. destruct (Z.ltb_spec y 100); [lia|].
  by destruct (Z.ltb_spec y 1000); [lia|].
Qed.

(** A timestamp from the year 1000 on, printed with [DATETIME_ISO], reads
    back as itself. *)
Lemma strptime_strftime_ISO d :
  Datetime.valid d = true → 1000 <= Datetime.year d →
  strptime_DATETIME_ISO (strftime_DATETIME_ISO d) = Some d.
Proof.
  intros Hv Hy1000.
  destruct (valid_ranges d Hv) as (Hy & Hm & Hd & HH & HM & HS & Hf).
  unfold strptime_DATETIME_ISO, strftime_DATETIME_ISO, Datetime.strftime_micro,
    Datetime.strftime_seconds, Datetime.strptime_micro.
  rewrite year_text_4 by done.
  rewrite !string_app_assoc, !string_app_cons, !string_app_nil.
  erewrite directive_Y_zfill; [| lia |].
  2:{ rewrite literal_same. cbn [mbind option_bind].
      apply directive_m_zfill; [lia|].
      rewrite literal_same. cbn [mbind option_bind].
      apply directive_d_zfill; [lia|].
      unfold Datetime.separator.
      change (is_space (code "T")) with false. cbn iota.
      rewrite literal_same. cbn [mbind option_bind]. unfold Datetime.clock.
      apply directive_H_zfill; [lia|].
      rewrite literal_same. cbn [mbind option_bind].
      apply directive_M_zfill; [lia|].
      rewrite literal_same. cbn [mbind option_bind].
      apply directive_S_zfill; [lia|].
      rewrite literal_same. cbn [mbind option_bind].
      rewrite fraction_zfill by done. reflexivity. }
  cbn [mbind option_bind String.eqb]. unfold Datetime.build.
  destruct d as [y m dd H M Sec f].
  cbn [Datetime.year Datetime.month Datetime.day Datetime.hour Datetime.minute
       Datetime.second Datetime.microsecond] in *.
  by rewrite Hv.
Qed.

Lemma zfill_1 n r : zfill 1 n +:+ r = String (digit_of (n mod 10)) r.
Proof. reflexivity. Qed.

Lemma zfill_3 n r :
  zfill 3 n +:+ r
  = String (digit_of ((n / 10 / 10) mod 10))
      (String (digit_of ((n / 10) mod 10)) (String (digit_of (n mod 10)) r)).
Proof. reflexivity. Qed.

(** Before the year 1000 the printed year has fewer than four digits,
    and the text does not read back. *)
Lemma strptime_strftime_early d :
  Datetime.year d < 1000 →
  strptime_DATETIME_ISO (strftime_DATETIME_ISO d) = None.
Proof.
  intros Hy.
  unfold strptime_DATETIME_ISO, strftime_DATETIME_ISO, Datetime.strftime_micro,
    Datetime.strftime_seconds, Datetime.strptime_micro, Datetime.year_text.
  rewrite !string_app_assoc.
  destruct (Z.ltb_spec (Datetime.year d) 10);
    [|destruct (Z.ltb_spec (Datetime.year d) 100);
      [|destruct (Z.ltb_spec (Datetime.year d) 1000); [|lia]]];
    rewrite ?zfill_1, ?zfill_2, ?zfill_3, !string_app_cons, !string_app_nil;
    unfold Datetime.pattern_Y; read_digits; reflexivity.
Qed.

End Digits.

(** ** The array archive: save, then load *)

Lemma saved_dict_lookup obj date :
  saved_dict obj date !! "__version__" = Some (PyStr "1.0")
  ∧ saved_dict obj date !! "BPMx" = Some (OrbitData.BPMx obj)
  ∧ saved_dict obj date !! "BPMy" = Some (OrbitData.BPMy obj)
  ∧ saved_dict obj date !! "CMx" = Some (OrbitData.CMx obj)
  ∧ saved_dict obj date !! "CMy" = Some (OrbitData.CMy obj)
  ∧ saved_dict obj date !! "sampling_frequency"
    = Some (OrbitData.sampling_frequency obj)
  ∧ saved_dict obj date !! "measure_date" = Some (PyStr date).
Proof. unfold saved_dict. repeat split; by simplify_map_eq. Qed.

Lemma save_orbit_npy_spec fs filename obj d :
  OrbitData.measure_date obj = PyDatetime d →
  save_orbit_npy fs filename obj
  = Ok (<[npy_path filename := [saved_dict obj (strftime_DATETIME_ISO d)]]> fs).
Proof. intros Hd. unfold save_orbit_npy. by rewrite Hd. Qed.

(** Loading the dict that [save_orbit_npy] stores, when [np.load]
    unpickles: the date text is parsed and the record is built. *)
Lemma load_saved_dict (np : Numpy.t) (fs : npy_files) path obj text :
  Numpy.allow_pickle np = true →
  fs !! path = Some [saved_dict obj text] →
  load_orbit_npy np fs path
  = strptime strptime_DATETIME_ISO (PyStr text) ≫= λ d,
    OrbitData.init (OrbitData.BPMx obj) (OrbitData.BPMy obj)
      (OrbitData.CMx obj) (OrbitData.CMy obj)
      (OrbitData.sampling_frequency obj) (PyDatetime d).
Proof.
  intros Hnp Hfile.
  destruct (saved_dict_lookup obj text)
    as (Hv & Hx & Hy & Hcx & Hcy & Hsf & Hdate).
  unfold load_orbit_npy, np_load, getitem. rewrite Hfile, Hnp, bind_Ok_l.
  unfold index at 1. cbn [lookup list_lookup]. rewrite bind_Ok_l.
  rewrite Hv, Hx, Hy, Hcx, Hcy, Hsf, Hdate.
  rewrite bool_decide_eq_true_2 by eauto. cbn [negb]. rewrite !bind_Ok_l.
  change (eq_str np (PyStr "1.0") "1.0") with (Ok true).
  by rewrite bind_Ok_l.
Qed.

(** When [np.load] refuses pickles, no file is read. *)
Lemma load_orbit_npy_refused (np : Numpy.t) (fs : npy_files) path arr :
  Numpy.allow_pickle np = false → fs !! path = Some arr →
  load_orbit_npy np fs path = Err ValueError_allow_pickle.
Proof.
  intros Hnp Hfile. unfold load_orbit_npy, np_load. by rewrite Hfile, Hnp.
Qed.

(** C7, as amended. With a NumPy whose [np.load] unpickles by default, a
    record with four two-dimensional arrays and a naive timestamp of the
    year 1000 or later, saved with [save_orbit_npy] and loaded from the
    file that was written, comes back with the same four arrays, the
    same sampling frequency and the same timestamp. *)
Theorem save_load_orbit_npy (np : Numpy.t) (fs : npy_files) (filename : string)
    (obj : OrbitData.t) (x y cx cy : matrix) (d : Datetime.t) :
  Numpy.allow_pickle np = true →
  OrbitData.BPMx obj = PyNdarray (Array2 x) →
  OrbitData.BPMy obj = PyNdarray (Array2 y) →
  OrbitData.CMx obj = PyNdarray (Array2 cx) →
  OrbitData.CMy obj = PyNdarray (Array2 cy) →
  OrbitData.measure_date obj = PyDatetime d →
  Datetime.valid d = true →
  (1000 <= Datetime.year d)%Z →
  ∃ fs' obj',
    save_orbit_npy fs filename obj = Ok fs'
    ∧ load_orbit_npy np fs' (npy_path filename) = Ok obj'
    ∧ OrbitData.BPMx obj' = OrbitData.BPMx obj
    ∧ OrbitData.BPMy obj' = OrbitData.BPMy obj
    ∧ OrbitData.CMx obj' = OrbitData.CMx obj
    ∧ OrbitData.CMy obj' = OrbitData.CMy obj
    ∧ OrbitData.sampling_frequency obj' = OrbitData.sampling_frequency obj
    ∧ OrbitData.measure_date obj' = OrbitData.measure_date obj.
Proof.
  intros Hnp Hx Hy Hcx Hcy Hdate Hvalid Hyear.
  eexists _, _. split; [by apply save_orbit_npy_spec|]. split.
  - rewrite (load_saved_dict np _ _ obj (strftime_DATETIME_ISO d));
      [| done | apply lookup_insert_eq].
    unfold strptime. rewrite strptime_strftime_ISO by done. rewrite bind_Ok_l.
    apply init_provided; by rewrite ?Hx, ?Hy, ?Hcx, ?Hcy.
  - by rewrite Hdate.
Qed.

Lemma save_load_orbit_npy_witness :
  ∃ fs' obj',
    save_orbit_npy ∅ "orbit" example_record = Ok fs'
    ∧ load_orbit_npy numpy_unpickling fs' "orbit.npy" = Ok obj'
    ∧ OrbitData.BPMx obj' = example_array
    ∧ OrbitData.BPMy obj' = example_array
    ∧ OrbitData.CMx obj' = example_array
    ∧ OrbitData.CMy obj' = example_array
    ∧ OrbitData.sampling_frequency obj' = PyInt 150
    ∧ OrbitData.measure_date obj'
      = PyDatetime (Datetime.mk 2016 5 30 16 30 30 123456).
Proof.
  exact (save_load_orbit_npy numpy_unpickling ∅ "orbit" example_record _ _ _ _ _
           eq_refl eq_refl eq_refl eq_refl eq_refl eq_refl eq_refl
           ltac:(by vm_compute)).
Defined.

(** C7, as written, fails in three ways. With a NumPy that refuses
    pickles the file that was saved is not loaded at all. A record of the
    year 999 is saved with the year printed as "999", which the loader
    does not read back. A timestamp with a time zone comes back without
    it. *)
Lemma save_load_orbit_npy_fails :
  (∃ fs', save_orbit_npy ∅ "orbit" example_record = Ok fs'
     ∧ load_orbit_npy numpy_refusing fs' "orbit.npy" = Err ValueError_allow_pickle)
  ∧ (∃ fs', save_orbit_npy ∅ "orbit" early_record = Ok fs'
       ∧ load_orbit_npy numpy_unpickling fs' "orbit.npy"
         = Err (ValueError_strptime "999-05-30T16:30:30.123456"))
  ∧ (∃ fs' obj', save_orbit_npy ∅ "orbit" aware_record = Ok fs'
       ∧ load_orbit_npy numpy_unpickling fs' "orbit.npy" = Ok obj'
       ∧ OrbitData.measure_date obj'
         = PyDatetime (Datetime.mk 2016 5 30 16 30 30 123456)
       ∧ OrbitData.measure_date obj' ≠ OrbitData.measure_date aware_record).
Proof.
  split; [|split].
  - eexists. split; [reflexivity|]. by vm_compute.
  - eexists. split; [reflexivity|]. by vm_compute.
  - eexists _, _. split; [reflexivity|]. split; [by vm_compute|].
    split; [reflexivity | discriminate].
Qed.

(** ** The two readers of a measurement dump *)

Lemma zeros_dims nb S : dims nb S (zeros nb S).
Proof. unfold dims, zeros. simpl. by rewrite repeat_length. Qed.

Section Group.
Context (data : gmap string pyval) (key : string) (S nb : nat).
Hypothesis Hwf : group_wf data key S nb.

Lemma group_shape : ∃ r, shape_of data key = Ok [r; S].
Proof.
  destruct Hwf as (o & row & Hk & _ & Hc & _). unfold shape_of, getitem.
  rewrite Hk. simpl. rewrite Hc. eauto.
Qed.

Lemma group_cell i :
  (i < S)%nat →
  ∃ c, cell_at data key i = Ok (inl c)
     ∧ nrows c = nb ∧ ncols c = 1%nat ∧ matrix_wf c.
Proof.
  intros Hi. destruct Hwf as (o & row & Hk & Hr & Hc & Hrow & Hlen & Hcells).
  destruct (lookup_lt_is_Some_2 row i) as [c Hci]; [lia|].
  exists c. split.
  - unfold cell_at, getitem, cell. rewrite Hk, bind_Ok_l.
    destruct (Nat.ltb_spec 0 (onrows o)); [|lia].
    destruct (Nat.ltb_spec i (oncols o)); [|lia].
    simpl. rewrite Hrow. simpl. by rewrite Hci.
  - by apply (Forall_lookup_1 _ _ _ _ Hcells Hci).
Qed.

Lemma group_cell_shape : (0 < S)%nat → cell_shape data key 0 = Ok [nb; 1%nat].
Proof.
  intros HS. destruct (group_cell 0 HS) as (c & Hc & Hn & Hm & _).
  unfold cell_shape. rewrite Hc, bind_Ok_l. by rewrite Hn, Hm.
Qed.

Lemma cell_col_length c : matrix_wf c → length (cell_col c) = nrows c.
Proof. intros [Hl _]. unfold cell_col. by rewrite length_fmap. Qed.

Lemma cell_col_lookup c j :
  matrix_wf c → ncols c = 1%nat → (j < nrows c)%nat →
  ∃ x, cell_col c !! j = Some x ∧ getitem2 c j 0 = Ok x.
Proof.
  intros [Hl Hrows] Hc Hj.
  destruct (lookup_lt_is_Some_2 (mrows c) j) as [r Hr]; [lia|].
  assert (length r = 1%nat) as Hlen.
  { rewrite <- Hc. by apply (Forall_lookup_1 _ _ _ _ Hrows Hr). }
  destruct r as [|x [|? ?]]; try discriminate.
  exists x. split.
  - unfold cell_col. by rewrite list_lookup_fmap, Hr.
  - unfold getitem2. destruct (Nat.ltb_spec j (nrows c)); [|lia].
    rewrite Hc. simpl. by rewrite Hr.
Qed.

(** The vectorised assignment of sample [i]. *)
Lemma group_set_column M i c :
  cell_at data key i = Ok (inl c) →
  nrows c = nb → ncols c = 1%nat → matrix_wf c →
  dims nb S M → (i < S)%nat →
  cell_column data key i ≫= set_column M i
  = Ok (mk_matrix nb S (zip_with (λ r x, <[i := x]> r) (mrows M) (cell_col c))).
Proof.
  intros Hc Hn Hm Hcwf (HMn & HMc & HMl) Hi.
  unfold cell_column, column. rewrite Hc, bind_Ok_l, Hm. simpl.
  unfold set_column. fold (cell_col c). rewrite HMc, HMn.
  destruct (Nat.ltb_spec i S); [|lia].
  rewrite cell_col_length, Hn, Nat.eqb_refl by done. done.
Qed.

(** The entry-by-entry assignment of sample [i], after [n] channels. *)
Lemma group_fill_prefix M i c n :
  cell_at data key i = Ok (inl c) →
  nrows c = nb → ncols c = 1%nat → matrix_wf c →
  dims nb S M → (i < S)%nat → (n ≤ nb)%nat →
  for_each (seq 0 n)
    (λ j M, x ← cell_entry data key i j; setitem2 M j i x) M
  = Ok (mk_matrix nb S
          (zip_with (λ r x, <[i := x]> r) (take n (mrows M)) (take n (cell_col c))
           ++ drop n (mrows M))).
Proof.
  intros Hc Hn Hm Hcwf (HMn & HMc & HMl) Hi.
  induction n as [|n IH]; intros Hle.
  - simpl. rewrite drop_0. destruct M; simpl in *. by subst.
  - rewrite seq_S, for_each_snoc, IH by lia. rewrite bind_Ok_l. simpl.
    destruct (cell_col_lookup c n) as (x & Hx & Hget); [done | done | lia |].
    unfold cell_entry. rewrite Hc, bind_Ok_l, Hget, bind_Ok_l.
    unfold setitem2. cbn [nrows ncols mrows].
    destruct (Nat.ltb_spec n nb); [|lia]. destruct (Nat.ltb_spec i S); [|lia].
    simpl. do 2 f_equal.
    destruct (lookup_lt_is_Some_2 (mrows M) n) as [r Hr]; [lia|].
    rewrite (take_S_r _ _ _ Hr), (take_S_r _ _ _ Hx).
    rewrite (drop_S _ _ _ Hr).
    assert (length (take n (mrows M)) = length (take n (cell_col c))) as Hlen.
    { rewrite !length_take, cell_col_length by done. lia. }
    rewrite zip_with_app by done. simpl.
    rewrite alter_app_r_alt; rewrite length_zip_with_l_eq, length_take by done;
      [|lia].
    replace (n - n `min` length (mrows M))%nat with 0%nat by lia.
    simpl. by rewrite <- app_assoc.
Qed.

Lemma group_fill_column M i c :
  cell_at data key i = Ok (inl c) →
  nrows c = nb → ncols c = 1%nat → matrix_wf c →
  dims nb S M → (i < S)%nat →
  Matlab.fill_column data key nb i M
  = Ok (mk_matrix nb S (zip_with (λ r x, <[i := x]> r) (mrows M) (cell_col c))).
Proof.
  intros Hc Hn Hm Hcwf HM Hi. unfold Matlab.fill_column.
  rewrite (group_fill_prefix M i c nb) by done.
  destruct HM as (HMn & HMc & HMl).
  rewrite !take_ge, drop_ge, app_nil_r; try done; try lia.
  rewrite cell_col_length by done. lia.
Qed.

(** For a sample of the dump both assignments give the same array, of the
    same shape as before. *)
Lemma group_sample M i :
  dims nb S M → (i < S)%nat →
  ∃ M', cell_column data key i ≫= set_column M i = Ok M'
      ∧ Matlab.fill_column data key nb i M = Ok M'
      ∧ dims nb S M'.
Proof.
  intros HM Hi. destruct (group_cell i Hi) as (c & Hc & Hn & Hm & Hcwf).
  eexists. split; [by apply group_set_column|].
  split; [by apply group_fill_column|].
  destruct HM as (HMn & HMc & HMl).
  repeat split. simpl.
  rewrite length_zip_with_l_eq; [done|]. rewrite cell_col_length by done. lia.
Qed.

End Group.

(** One sample: the four column assignments of [load_orbit_dump] and the
    four inner loops of [load_timeanalys] leave the same four arrays. *)
Lemma sample_step data S nbx nby ncx ncy i acc :
  group_wf data "difforbitX" S nbx → group_wf data "difforbitY" S nby →
  group_wf data "CMx" S ncx → group_wf data "CMy" S ncy →
  (i < S)%nat → dims4 S nbx nby ncx ncy acc →
  ∃ acc', dump_column data i acc = Ok acc'
        ∧ Matlab.fill_sample data nbx nby ncx ncy i acc = Ok acc'
        ∧ dims4 S nbx nby ncx ncy acc'.
Proof.
  intros Hx Hy Hcx Hcy Hi. destruct acc as [[[X Y] CX] CY].
  intros (HX & HY & HCX & HCY).
  destruct (group_sample _ _ _ _ Hx X i HX Hi) as (X' & Hv1 & Hf1 & HX').
  destruct (group_sample _ _ _ _ Hy Y i HY Hi) as (Y' & Hv2 & Hf2 & HY').
  destruct (group_sample _ _ _ _ Hcx CX i HCX Hi) as (CX' & Hv3 & Hf3 & HCX').
  destruct (group_sample _ _ _ _ Hcy CY i HCY Hi) as (CY' & Hv4 & Hf4 & HCY').
  apply bind_Ok in Hv1 as (v1 & Hc1 & Hs1). apply bind_Ok in Hv2 as (v2 & Hc2 & Hs2).
  apply bind_Ok in Hv3 as (v3 & Hc3 & Hs3). apply bind_Ok in Hv4 as (v4 & Hc4 & Hs4).
  exists (X', Y', CX', CY'). split; [|split; [|done]].
  - unfold dump_column.
    rewrite Hc1, bind_Ok_l, Hs1, bind_Ok_l, Hc2, bind_Ok_l, Hs2, bind_Ok_l.
    by rewrite Hc3, bind_Ok_l, Hs3, bind_Ok_l, Hc4, bind_Ok_l, Hs4, bind_Ok_l.
  - unfold Matlab.fill_sample.
    by rewrite Hf1, bind_Ok_l, Hf2, bind_Ok_l, Hf3, bind_Ok_l, Hf4, bind_Ok_l.
Qed.

Lemma group_wf_is_Some data key S nb : group_wf data key S nb → is_Some (data !! key).
Proof. intros (o & row & -> & _). eauto. Qed.

(** C8. On a well-formed dump [load_timeanalys] returns four arrays, and
    [load_orbit_dump] returns the record whose [BPMx], [BPMy], [CMx] and
    [CMy] are those same arrays. *)
Theorem dump_readers_agree (np : Numpy.t) (data : gmap string pyval)
    (S nbx nby ncx ncy : nat) (date : Datetime.t) :
  dump_wf data S nbx nby ncx ncy date →
  ∃ X Y CX CY,
    Matlab.load_timeanalys data = Ok (X, Y, CX, CY)
    ∧ load_orbit_dump np data
      = Ok (OrbitData.mk (PyNdarray (Array2 X)) (PyNdarray (Array2 Y))
              (PyNdarray (Array2 CX)) (PyNdarray (Array2 CY))
              (PyInt 150) 0 (PyDatetime date)).
Proof.
  intros (HS & Hx & Hy & Hcx & Hcy & Hv & Hdate).
  destruct (for_each_agree (dims4 S nbx nby ncx ncy) (seq 0 S)
              (dump_column data) (Matlab.fill_sample data nbx nby ncx ncy)
              (zeros nbx S, zeros nby S, zeros ncx S, zeros ncy S))
    as ([[[X Y] CX] CY] & Hdump & Hfill & _).
  { repeat split; apply zeros_dims. }
  { intros i acc [_ Hi]%elem_of_seq Hacc. apply sample_step; (done || lia). }
  exists X, Y, CX, CY.
  destruct (group_shape _ _ _ _ Hx) as [r Hsh].
  pose proof (group_cell_shape _ _ _ _ Hx HS) as Hsx.
  pose proof (group_cell_shape _ _ _ _ Hy HS) as Hsy.
  pose proof (group_cell_shape _ _ _ _ Hcx HS) as Hscx.
  pose proof (group_cell_shape _ _ _ _ Hcy HS) as Hscy.
  split.
  - unfold Matlab.load_timeanalys. rewrite Hsh, Hsx, Hsy, Hscx, Hscy.
    rewrite !bind_Ok_l. unfold index. cbn [lookup list_lookup].
    rewrite !bind_Ok_l. exact Hfill.
  - unfold load_orbit_dump, getitem. rewrite Hv, bind_Ok_l.
    change (eq_str np (PyStr "1.0") "1.0") with (Ok true).
    rewrite bind_Ok_l. cbn [negb].
    rewrite dump_keys_check_ok.
    2:{ assert (is_Some (data !! "__header__")) as Hh.
        { unfold creation_date, getitem in Hdate.
          destruct (data !! "__header__"); [eauto | discriminate]. }
        repeat (constructor; [by eauto using group_wf_is_Some|]).
        constructor. }
    rewrite bind_Ok_l, Hdate, bind_Ok_l.
    rewrite Hsh, Hsx, Hsy, Hscx, Hscy. rewrite !bind_Ok_l.
    unfold unpack2. rewrite !bind_Ok_l. rewrite Hdump, bind_Ok_l.
    reflexivity.
Qed.

Lemma example_dump_wf :
  dump_wf example_dump 2 3 2 1 2 (Datetime.mk 2016 5 30 16 30 30 0).
Proof.
  assert (∀ l : list Q, matrix_wf (column_vector l)) as Hcol.
  { intros l. split; simpl; [by rewrite length_fmap|].
    apply Forall_fmap, Forall_true. done. }
  repeat split; try reflexivity; try lia;
    (eexists _, _; split; [reflexivity|];
     repeat split; try reflexivity; try (simpl; lia);
     repeat (constructor; [repeat split; try reflexivity; apply Hcol|]);
     constructor).
Defined.

Lemma dump_readers_agree_witness :
  dump_wf example_dump 2 3 2 1 2 (Datetime.mk 2016 5 30 16 30 30 0)
  ∧ ∃ X Y CX CY,
      Matlab.load_timeanalys example_dump = Ok (X, Y, CX, CY)
      ∧ load_orbit_dump numpy_unpickling example_dump
        = Ok (OrbitData.mk (PyNdarray (Array2 X)) (PyNdarray (Array2 Y))
                (PyNdarray (Array2 CX)) (PyNdarray (Array2 CY))
                (PyInt 150) 0 (PyDatetime (Datetime.mk 2016 5 30 16 30 30 0))).
Proof.
  split; [exact example_dump_wf|].
  exact (dump_readers_agree numpy_unpickling example_dump 2 3 2 1 2 _
           example_dump_wf).
Defined.

(** ** Kick localisation: the scan over the windows *)

Section Scan.
Local Open Scope Q_scope.

Context (pi : Q) (cos : Q → Q) (fit_sine : list Q → list Q → result (Q * Q * Q)).
Context (orbit phase : list Q) (tune : Q).

Lemma Qltb_lt x y : Qltb x y = true ↔ x < y.
Proof. unfold Qltb, Qlt. apply Z.ltb_lt. Qed.

Lemma Qltb_ge x y : Qltb x y = false ↔ y <= x.
Proof. unfold Qltb, Qle. apply Z.ltb_ge. Qed.

Lemma scanned_tables n st b c rms :
  length (rms_tab st) = n → length (cos_coefficients st) = n →
  (∀ j, (j < n)%nat →
     ∃ b c r, fit_window pi cos fit_sine orbit phase tune j = Ok (b, c, r)
            ∧ rms_tab st !! j = Some r
            ∧ cos_coefficients st !! j = Some (b, c)) →
  fit_window pi cos fit_sine orbit phase tune n = Ok (b, c, rms) →
  ∀ j, (j < S n)%nat →
    ∃ b' c' r, fit_window pi cos fit_sine orbit phase tune j = Ok (b', c', r)
             ∧ (rms_tab st ++ [rms]) !! j = Some r
             ∧ (cos_coefficients st ++ [(b, c)]) !! j = Some (b', c').
Proof.
  intros Hlen Hlenc Htab Hfit j Hj.
  destruct (decide (j = n)) as [->|Hne].
  - exists b, c, rms. split; [done|].
    rewrite !lookup_app_r by lia. rewrite Hlen, Hlenc, Nat.sub_diag. done.
  - destruct (Htab j) as (b' & c' & r & ? & ? & ?); [lia|].
    exists b', c', r. split; [done|].
    rewrite !lookup_app_l by lia. done.
Qed.

Lemma lookup_snoc_inv (l : list Q) (x r : Q) (j : nat) :
  (l ++ [x]) !! j = Some r → l !! j = Some r ∨ (j = length l ∧ r = x).
Proof.
  intros H. destruct (decide (j < length l)%nat).
  - left. by rewrite lookup_app_l in H.
  - right. rewrite lookup_app_r in H by lia.
    destruct (j - length l)%nat as [|k] eqn:E; simpl in H; [|by destruct k].
    split; [lia | congruence].
Qed.

Lemma scan_step_scanned n st st' :
  scanned pi cos fit_sine orbit phase tune n st →
  scan_step pi cos fit_sine orbit phase tune n st = Ok st' →
  scanned pi cos fit_sine orbit phase tune (S n) st'.
Proof.
  intros (Hlen & Hlenc & Htab & Hbest) Hstep. unfold scan_step in Hstep.
  apply bind_Ok in Hstep as ([[b c] rms] & Hfit & Hstep).
  pose proof (scanned_tables n st b c rms Hlen Hlenc Htab Hfit) as Htab'.
  destruct (Qltb rms (best_rms st) || (n =? 0)%nat) eqn:Hcmp;
    inversion Hstep; subst st'; clear Hstep;
    unfold scanned; cbn [i_best best_rms rms_tab cos_coefficients];
    (split; [by rewrite length_app; simpl; lia|]);
    (split; [by rewrite length_app; simpl; lia|]);
    (split; [exact Htab'|]).
  - (* window [n] becomes the incumbent *)
    assert (∀ j r, rms_tab st !! j = Some r → rms < r) as Hlt.
    { intros j r Hj. apply orb_prop in Hcmp as [Hcmp|Hcmp].
      - apply Qltb_lt in Hcmp. destruct (i_best st) as [i|].
        + destruct Hbest as (_ & _ & Hmin & _).
          eapply Qlt_le_trans; [exact Hcmp | by eapply Hmin].
        + subst n. by destruct (rms_tab st).
      - apply Nat.eqb_eq in Hcmp. subst n. by destruct (rms_tab st). }
    split; [lia|]. split; [by rewrite lookup_app_r, Hlen, Nat.sub_diag by lia|].
    split.
    + intros j r [Hj|[_ ->]]%lookup_snoc_inv; [|apply Qle_refl].
      apply Qlt_le_weak. by eapply Hlt.
    + intros j r Hj Hr. rewrite lookup_app_l in Hr by lia. by eapply Hlt.
  - (* the incumbent stays *)
    apply orb_false_elim in Hcmp as [Hge%Qltb_ge Hn%Nat.eqb_neq].
    destruct (i_best st) as [i|]; [|lia].
    destruct Hbest as (Hi & Hri & Hmin & Hfirst).
    split; [lia|]. split; [by rewrite lookup_app_l by lia|]. split.
    + intros j r [Hj|[_ ->]]%lookup_snoc_inv; [by eapply Hmin | done].
    + intros j r Hj Hr. rewrite lookup_app_l in Hr by lia. by eapply Hfirst.
Qed.

Lemma scan_prefix n st :
  for_each (seq 0 n) (scan_step pi cos fit_sine orbit phase tune)
    (mk_locals [] 0 [] None) = Ok st →
  scanned pi cos fit_sine orbit phase tune n st.
Proof.
  revert st. induction n as [|n IH]; intros st Hrun.
  - inversion Hrun. repeat split; simpl; intros; lia.
  - rewrite seq_S, for_each_snoc in Hrun.
    apply bind_Ok in Hrun as (st0 & Hrun & Hstep).
    eapply scan_step_scanned; [by apply IH | exact Hstep].
Qed.

(** The scan returns whenever every window can be fitted. *)
Lemma scan_returns :
  (∀ j, (j < length orbit)%nat →
     ∃ w, fit_window pi cos fit_sine orbit phase tune j = Ok w) →
  ∃ st, scan pi cos fit_sine orbit phase tune = Ok st.
Proof.
  unfold scan. generalize (mk_locals [] 0 [] None).
  induction (length orbit) as [|n IH]; intros st0 Hfit; [by eexists|].
  rewrite seq_S, for_each_snoc. cbn [Nat.add].
  destruct (IH st0) as [st ->]; [intros j Hj; apply Hfit; lia|].
  rewrite bind_Ok_l. unfold scan_step.
  destruct (Hfit n) as [[[b c] rms] ->]; [lia|]. rewrite bind_Ok_l.
  destruct (_ || _); by eexists.
Qed.

End Scan.

(** ** Kick localisation: the winner and the kick phase *)

(** C3. When the scan over a non-empty orbit returns, [i_best] is a window
    index, the residual kept in [best_rms] is that window's, no window has
    a smaller residual, and every window before it has a strictly larger
    one: a window whose residual equals the least one has an index at or
    after [i_best], so of two such windows the lower index is chosen. The
    residuals are those of the fits of the windows. *)
Theorem scan_first_least (pi : Q) (cos : Q → Q)
    (fit_sine : list Q → list Q → result (Q * Q * Q))
    (orbit phase : list Q) (tune : Q) (st : locals) :
  orbit ≠ [] →
  scan pi cos fit_sine orbit phase tune = Ok st →
  ∃ i, i_best st = Some i
     ∧ (i < length orbit)%nat
     ∧ rms_tab st !! i = Some (best_rms st)
     ∧ (∀ j r, rms_tab st !! j = Some r → (best_rms st <= r)%Q)
     ∧ (∀ j r, (j < i)%nat → rms_tab st !! j = Some r → (best_rms st < r)%Q)
     ∧ (∀ j r, rms_tab st !! j = Some r → (r == best_rms st)%Q → (i ≤ j)%nat)
     ∧ (∀ j, (j < length orbit)%nat →
          ∃ b c r, fit_window pi cos fit_sine orbit phase tune j = Ok (b, c, r)
                 ∧ rms_tab st !! j = Some r).
Proof.
  intros Hne Hscan.
  destruct (scan_prefix _ _ _ _ _ _ _ _ Hscan) as (_ & _ & Htab & Hbest).
  destruct (i_best st) as [i|].
  - destruct Hbest as (Hi & Hri & Hmin & Hfirst).
    exists i. repeat split; try done.
    + intros j r Hr Heq. destruct (decide (i ≤ j)%nat) as [|Hlt]; [done|].
      exfalso. apply (Qlt_irrefl r). rewrite Heq at 1.
      apply (Hfirst j r); [lia | done].
    + intros j Hj. destruct (Htab j Hj) as (b & c & r & ? & ? & _). eauto.
  - by destruct orbit.
Qed.

Lemma scan_first_least_witness :
  ∃ st, scan np_pi cos_poly fit_unit [1; 1]%Q [0; 0]%Q 0%Q = Ok st
    ∧ Forall (Qeq 0) (rms_tab st)
    ∧ ∃ i, i_best st = Some i
       ∧ (i < 2)%nat
       ∧ rms_tab st !! i = Some (best_rms st)
       ∧ (∀ j r, rms_tab st !! j = Some r → (best_rms st <= r)%Q)
       ∧ (∀ j r, (j < i)%nat → rms_tab st !! j = Some r → (best_rms st < r)%Q)
       ∧ (∀ j r, rms_tab st !! j = Some r → (r == best_rms st)%Q → (i ≤ j)%nat)
       ∧ (∀ j, (j < 2)%nat →
            ∃ b c r, fit_window np_pi cos_poly fit_unit [1; 1]%Q [0; 0]%Q 0%Q j
                     = Ok (b, c, r)
                   ∧ rms_tab st !! j = Some r).
Proof.
  destruct (scan np_pi cos_poly fit_unit [1; 1]%Q [0; 0]%Q 0%Q) as [st|e] eqn:Hscan;
    [|by vm_compute in Hscan].
  exists st. split; [done|]. split.
  - vm_compute in Hscan. injection Hscan as <-. by repeat constructor.
  - apply (scan_first_least np_pi cos_poly fit_unit [1; 1]%Q [0; 0]%Q 0%Q);
      [discriminate | exact Hscan].
Defined.

(** C10. When [get_kick] returns, the winning index lies below the number
    of BPMs, so reducing it modulo that number changes nothing, and the
    pair returned is the (amplitude, offset) pair of the fit of the
    winning window. *)
Theorem get_kick_winner (pi : Q) (cos : Q → Q)
    (fit_sine : list Q → list Q → result (Q * Q * Q))
    (orbit phase : list Q) (tune kick_phase : Q) (coef : Q * Q) :
  get_kick pi cos fit_sine orbit phase tune = Ok (kick_phase, coef) →
  ∃ st i rms,
    scan pi cos fit_sine orbit phase tune = Ok st
    ∧ i_best st = Some i
    ∧ (i < length orbit)%nat
    ∧ (i mod length orbit = i)%nat
    ∧ cos_coefficients st !! i = Some coef
    ∧ fit_window pi cos fit_sine orbit phase tune i = Ok (coef.1, coef.2, rms).
Proof.
  unfold get_kick. intros H.
  apply bind_Ok in H as (st & Hscan & H).
  destruct (scan_prefix _ _ _ _ _ _ _ _ Hscan) as (_ & _ & Htab & Hbest).
  destruct (i_best st) as [i|] eqn:Hi; [|discriminate]. rewrite bind_Ok_l in H.
  destruct Hbest as (Hlt & _).
  rewrite Nat.mod_small in H by done.
  destruct (Htab i Hlt) as (b & c & rms & Hfit & _ & Hcoef).
  unfold index in H. rewrite Hcoef in H. rewrite bind_Ok_l in H.
  apply bind_Ok in H as (a & _ & H). apply bind_Ok in H as (kp & _ & H).
  rewrite bind_Ok_l in H. inversion H; subst.
  exists st, i, rms. rewrite Nat.mod_small by done. done.
Qed.

Lemma get_kick_winner_witness :
  ∃ kick_phase coef,
    get_kick np_pi cos_poly fit_unit [1; 1]%Q [0; 0]%Q 0%Q = Ok (kick_phase, coef)
    ∧ ∃ st i rms,
        scan np_pi cos_poly fit_unit [1; 1]%Q [0; 0]%Q 0%Q = Ok st
        ∧ i_best st = Some i
        ∧ (i < 2)%nat
        ∧ (i mod 2 = i)%nat
        ∧ cos_coefficients st !! i = Some coef
        ∧ fit_window np_pi cos_poly fit_unit [1; 1]%Q [0; 0]%Q 0%Q i
          = Ok (coef.1, coef.2, rms).
Proof.
  destruct (get_kick np_pi cos_poly fit_unit [1; 1]%Q [0; 0]%Q 0%Q)
    as [[kick_phase coef]|e] eqn:Hkick; [|by vm_compute in Hkick].
  exists kick_phase, coef. split; [done|].
  exact (get_kick_winner np_pi cos_poly fit_unit [1; 1]%Q [0; 0]%Q 0%Q
           kick_phase coef Hkick).
Defined.

(** On an empty orbit the loop never runs and [i_best] is read unbound. *)
Lemma get_kick_empty pi cos fit_sine phase tune :
  get_kick pi cos fit_sine [] phase tune = Err (NameError "i_best").
Proof. reflexivity. Qed.

(** *** The kick phase *)

Lemma int_nonneg (x : Q) : (0 <= x)%Q → int x = Qfloor x.
Proof.
  destruct x as [n d]. unfold Qle, int, Qfloor. simpl. intros Hn.
  apply Z.quot_div_nonneg; lia.
Qed.

(** [int] rounds a negative fraction up, where the floor goes down. *)
Example int_negative : int (-7 # 4) = (-1)%Z ∧ Qfloor (-7 # 4) = (-2)%Z.
Proof. split; reflexivity. Qed.

(** The kick phase of the code is one of its two candidates, the first
    unless the second is strictly closer to [apriori_phase]. *)
Lemma kick_phase_of_choice pi apriori_phase c tune :
  let k := int ((apriori_phase + c) / pi + tune) in
  let s0 := (- c - pi * tune + inject_Z k * pi)%Q in
  let s1 := (- c - pi * tune + inject_Z (k + 1) * pi)%Q in
  kick_phase_of pi apriori_phase c tune
  = Ok (if Qltb (Qabs (s1 - apriori_phase)) (Qabs (s0 - apriori_phase))
        then s1 else s0).
Proof.
  intros k s0 s1. unfold kick_phase_of. fold k. cbn [fmap list_fmap].
  fold s0 s1. unfold argmin, argmin_from.
  by destruct (Qltb _ _).
Qed.

(** Where the quotient is not negative the code does what the
    specification says. *)
Lemma kick_phase_of_nonneg pi apriori_phase c tune kick_phase :
  (0 <= (apriori_phase + c) / pi + tune)%Q →
  kick_phase_of pi apriori_phase c tune = Ok kick_phase →
  spec_is_kick_phase pi apriori_phase c tune kick_phase.
Proof.
  intros Hx. rewrite kick_phase_of_choice, (int_nonneg _ Hx).
  unfold spec_is_kick_phase, spec_candidates.
  destruct (Qltb _ _) eqn:Hcmp; intros H; inversion H; subst; clear H.
  - apply Qltb_lt in Hcmp. repeat split; [by right | by apply Qlt_le_weak | apply Qle_refl].
  - apply Qltb_ge in Hcmp. repeat split; [by left | apply Qle_refl | done].
Qed.

(** With a single BPM there is one window, which wins. *)
Lemma get_kick_single pi cos fit_sine x p tune o b c :
  fit_sine [x] [p] = Ok (o, b, c) →
  get_kick pi cos fit_sine [x] [p] tune
  = kick_phase_of pi p c tune ≫= λ kick_phase, Ok (kick_phase, (b, c)).
Proof.
  intros Hfit. unfold get_kick, scan. cbn [length seq for_each].
  unfold scan_step, fit_window, window, signal_exp, phase_exp.
  cbn [length app take drop fmap list_fmap]. rewrite Hfit, !bind_Ok_l.
  unfold broadcast. cbn [length Nat.eqb zip_with]. rewrite !bind_Ok_l.
  rewrite orb_true_r.
  cbn [Py.bind mbind result_bind i_best cos_coefficients rms_tab best_rms app].
  unfold index.
  cbn [lookup list_lookup Nat.modulo Nat.divmod snd Nat.sub Py.bind].
  rewrite !bind_Ok_l.
  by destruct (kick_phase_of pi p c tune).
Qed.

(** C2. One BPM at phase -6, tune 1/4, and a fit that answers offset 0:
    [(apriori_phase + c)/pi + tune] is about -1.66, [int] makes it -1 where
    the floor is -2. The code returns the candidate [-5/4 pi] (about -3.93,
    at distance 2.07 of -6); the candidates of the specification are
    [-9/4 pi] (about -7.07, at distance 1.07) and [-5/4 pi], of which the
    closer one is [-9/4 pi]. *)
Theorem get_kick_negative_quotient (cos : Q → Q) :
  ∃ kick_phase,
    get_kick np_pi cos fit_unit [1]%Q [-6]%Q (1 # 4)%Q = Ok (kick_phase, (1, 0)%Q)
    ∧ (kick_phase == - (5 # 4) * np_pi)%Q
    ∧ ((-6 + 0) / np_pi + (1 # 4) < 0)%Q
    ∧ int ((-6 + 0) / np_pi + (1 # 4)) = (-1)%Z
    ∧ Qfloor ((-6 + 0) / np_pi + (1 # 4)) = (-2)%Z
    ∧ ¬ spec_is_kick_phase np_pi (-6) 0 (1 # 4) kick_phase.
Proof.
  destruct (kick_phase_of np_pi (-6) 0 (1 # 4)) as [kick_phase|e] eqn:Hk;
    [|by vm_compute in Hk].
  exists kick_phase. split.
  - rewrite (get_kick_single _ _ _ _ _ _ 0%Q 1%Q 0%Q) by reflexivity.
    by rewrite Hk.
  - vm_compute in Hk. injection Hk as <-.
    split; [reflexivity|]. split; [reflexivity|].
    split; [reflexivity|]. split; [reflexivity|].
    intros (_ & Hcloser & _). by vm_compute in Hcloser.
Qed.

(** [get_kick] returns on a non-empty orbit with as many phases as
    amplitudes, provided the fit itself does not raise. *)
Lemma get_kick_returns pi cos fit_sine orbit phase tune :
  orbit ≠ [] → length phase = length orbit →
  (∀ s p, ∃ w, fit_sine s p = Ok w) →
  ∃ kick_phase coef,
    get_kick pi cos fit_sine orbit phase tune = Ok (kick_phase, coef).
Proof.
  intros Hne Hlen Hfit.
  assert (∀ j, (j < length orbit)%nat →
            ∃ w, fit_window pi cos fit_sine orbit phase tune j = Ok w) as Hwin.
  { intros j Hj. unfold fit_window.
    destruct (Hfit (window j (length orbit) (signal_exp orbit))
                   (window j (length orbit) (phase_exp pi phase tune)))
      as [[[o b] c] ->].
    rewrite bind_Ok_l. unfold broadcast.
    rewrite length_fmap. unfold window, signal_exp, phase_exp.
    rewrite !length_take, !length_drop, !length_app, length_fmap, Hlen.
    rewrite Nat.eqb_refl. rewrite bind_Ok_l. by eexists. }
  destruct (scan_returns _ _ _ _ _ _ Hwin) as [st Hscan].
  destruct (scan_prefix _ _ _ _ _ _ _ _ Hscan) as (_ & _ & Htab & Hbest).
  unfold get_kick. rewrite Hscan, bind_Ok_l.
  destruct (i_best st) as [i|]; [|by destruct orbit].
  destruct Hbest as (Hi & _). rewrite bind_Ok_l.
  destruct (Htab i Hi) as (b & c & r & _ & _ & Hc).
  rewrite Nat.mod_small by done. unfold index at 1 3. rewrite Hc, bind_Ok_l.
  destruct (lookup_lt_is_Some_2 phase i) as [a Ha]; [lia|].
  unfold index. rewrite Ha, bind_Ok_l.
  rewrite kick_phase_of_choice, !bind_Ok_l. by eexists _, _.
Qed.

(** * Further properties *)

(** ** The orbit record: what the constructor accepts *)

(** X1. The constructor returns a record exactly when the four channel
    groups are all given, whatever their type or shape, and the record
    holds the six arguments as they were passed; otherwise it raises the
    type error that names the first omitted group. *)
Theorem init_outcome (x y cx cy sf date : pyval) :
  OrbitData.init x y cx cy sf date
  = match first_omitted x y cx cy with
    | Some name => Err (TypeError_not_ndarray name "NoneType")
    | None => Ok (OrbitData.mk x y cx cy sf 0 date)
    end.
Proof.
  unfold OrbitData.init, first_omitted.
  rewrite !check_single_arrays_outcome.
  by destruct (is_None x), (is_None y), (is_None cx), (is_None cy).
Qed.

(** ** The array archive: what is written and what is read back *)

Lemma build_valid y m d H M S f r :
  Datetime.build y m d H M S f = Some r → Datetime.valid r = true.
Proof.
  unfold Datetime.build. destruct (Datetime.valid _) eqn:Hv; [|discriminate].
  by intros [= <-].
Qed.

(** Whatever [strptime] returns for the ISO format is a date that the
    [datetime] constructor accepts. *)
Lemma strptime_micro_valid sep s d :
  Datetime.strptime_micro sep s = Some d → Datetime.valid d = true.
Proof.
  unfold Datetime.strptime_micro. intros H.
  destruct (Datetime.directive _ _ _) as [[[[[[[[y m] dd] HH] M] Sec] f] r]|];
    [|discriminate].
  cbn [mbind option_bind] in H.
  destruct (String.eqb r ""); [|discriminate]. by eapply build_valid.
Qed.

(** What a returned record says of the arguments of the constructor. *)
Lemma init_Ok x y cx cy sf date r :
  OrbitData.init x y cx cy sf date = Ok r →
  x ≠ PyNone ∧ y ≠ PyNone ∧ cx ≠ PyNone ∧ cy ≠ PyNone
  ∧ r = OrbitData.mk x y cx cy sf 0 date.
Proof.
  unfold OrbitData.init. rewrite !check_single_arrays_outcome. intros H.
  destruct (is_None x) eqn:Hx; [discriminate|].
  destruct (is_None y) eqn:Hy; [discriminate|].
  destruct (is_None cx) eqn:Hcx; [discriminate|].
  destruct (is_None cy) eqn:Hcy; [discriminate|].
  injection H as <-. repeat split; by intros ->.
Qed.

(** X2. A record that [load_orbit_npy] returns was read by a NumPy that
    unpickles by default; its four channel groups are present, its
    [measure_date] is a naive [datetime] that the constructor of
    [datetime] accepts, and the first dict of the file carries a version
    that compared equal to '1.0'. *)
Theorem load_orbit_npy_record (np : Numpy.t) (fs : npy_files) (filename : string)
    (r : OrbitData.t) :
  load_orbit_npy np fs filename = Ok r →
  Numpy.allow_pickle np = true
  ∧ OrbitData.BPMx r ≠ PyNone ∧ OrbitData.BPMy r ≠ PyNone
  ∧ OrbitData.CMx r ≠ PyNone ∧ OrbitData.CMy r ≠ PyNone
  ∧ (∃ d, OrbitData.measure_date r = PyDatetime d ∧ Datetime.valid d = true)
  ∧ ∃ data rest v, fs !! filename = Some (data :: rest)
      ∧ data !! "__version__" = Some v ∧ eq_str np v "1.0" = Ok true.
Proof.
  unfold load_orbit_npy. intros H.
  apply bind_Ok in H as (arr & Harr & H).
  apply bind_Ok in H as (data & Hdata & H).
  unfold np_load in Harr.
  destruct (fs !! filename) as [arr'|] eqn:Hfile; [|discriminate].
  destruct (Numpy.allow_pickle np) eqn:Hnp; [|discriminate].
  injection Harr as ->.
  destruct arr as [|data' rest]; [discriminate|].
  injection Hdata as ->.
  destruct (bool_decide (is_Some (data !! "__version__")));
    cbn [negb] in H; [|discriminate].
  apply bind_Ok in H as (v & Hv & H).
  unfold getitem in Hv.
  destruct (data !! "__version__") as [v'|] eqn:Hlook; [|discriminate].
  injection Hv as ->.
  apply bind_Ok in H as (known & Hknown & H).
  destruct known; [|discriminate].
  apply bind_Ok in H as (bx & _ & H). apply bind_Ok in H as (bY & _ & H).
  apply bind_Ok in H as (cx & _ & H). apply bind_Ok in H as (cY & _ & H).
  apply bind_Ok in H as (sf & _ & H). apply bind_Ok in H as (date & _ & H).
  apply bind_Ok in H as (d & Hd & H).
  assert (Datetime.valid d = true) as Hvalid.
  { unfold strptime in Hd. destruct date; try discriminate.
    destruct (strptime_DATETIME_ISO s) as [d'|] eqn:Hp; [|discriminate].
    injection Hd as ->. by eapply strptime_micro_valid. }
  apply init_Ok in H as (Hbx & HbY & Hcx & HcY & ->). cbn.
  repeat split; try done; [by eauto | by eexists _, _, _].
Qed.

Lemma load_orbit_npy_record_witness :
  ∃ r, load_orbit_npy numpy_unpickling example_npy_files "orbit.npy" = Ok r
    ∧ Numpy.allow_pickle numpy_unpickling = true
    ∧ OrbitData.BPMx r ≠ PyNone ∧ OrbitData.BPMy r ≠ PyNone
    ∧ OrbitData.CMx r ≠ PyNone ∧ OrbitData.CMy r ≠ PyNone
    ∧ (∃ d, OrbitData.measure_date r = PyDatetime d ∧ Datetime.valid d = true)
    ∧ ∃ data rest v, example_npy_files !! "orbit.npy" = Some (data :: rest)
        ∧ data !! "__version__" = Some v
        ∧ eq_str numpy_unpickling v "1.0" = Ok true.
Proof.
  destruct (load_orbit_npy numpy_unpickling example_npy_files "orbit.npy")
    as [r|e] eqn:Hload; [|by vm_compute in Hload].
  exists r. split; [done|].
  exact (load_orbit_npy_record numpy_unpickling example_npy_files "orbit.npy"
           r Hload).
Defined.

(** X3. With a NumPy whose [np.load] refuses pickles by default (1.16.3
    and later), no file that [save_orbit_npy] wrote can be loaded again:
    [load_orbit_npy] raises the [ValueError] of [np.load], whatever the
    record. *)
Theorem save_load_orbit_npy_refused (np : Numpy.t) (fs fs' : npy_files)
    (filename : string) (obj : OrbitData.t) :
  Numpy.allow_pickle np = false →
  save_orbit_npy fs filename obj = Ok fs' →
  load_orbit_npy np fs' (npy_path filename) = Err ValueError_allow_pickle.
Proof.
  intros Hnp Hsave. unfold save_orbit_npy in Hsave.
  apply bind_Ok in Hsave as (date & _ & Hsave). injection Hsave as <-.
  eapply load_orbit_npy_refused; [done|]. unfold np_save. apply lookup_insert_eq.
Qed.

Lemma save_load_orbit_npy_refused_witness :
  load_orbit_npy numpy_refusing example_npy_files (npy_path "orbit")
  = Err ValueError_allow_pickle.
Proof.
  exact (save_load_orbit_npy_refused numpy_refusing ∅ example_npy_files "orbit"
           example_record eq_refl eq_refl).
Defined.

(** X4. A record dated before the year 1000 is saved, with the year
    printed without padding, and cannot be loaded again: the loader
    raises the [ValueError] of [strptime] on the date text it finds. *)
Theorem save_load_orbit_npy_early (np : Numpy.t) (fs : npy_files)
    (filename : string) (obj : OrbitData.t) (d : Datetime.t) :
  Numpy.allow_pickle np = true →
  OrbitData.measure_date obj = PyDatetime d →
  (Datetime.year d < 1000)%Z →
  ∃ fs', save_orbit_npy fs filename obj = Ok fs'
    ∧ load_orbit_npy np fs' (npy_path filename)
      = Err (ValueError_strptime (strftime_DATETIME_ISO d)).
Proof.
  intros Hnp Hdate Hyear.
  eexists. split; [by apply save_orbit_npy_spec|].
  rewrite (load_saved_dict np _ _ obj (strftime_DATETIME_ISO d));
    [| done | apply lookup_insert_eq].
  unfold strptime. by rewrite strptime_strftime_early.
Qed.

Lemma save_load_orbit_npy_early_witness :
  ∃ fs', save_orbit_npy ∅ "orbit" early_record = Ok fs'
    ∧ load_orbit_npy numpy_unpickling fs' (npy_path "orbit")
      = Err (ValueError_strptime
               (strftime_DATETIME_ISO (Datetime.mk 999 5 30 16 30 30 123456))).
Proof.
  exact (save_load_orbit_npy_early numpy_unpickling ∅ "orbit" early_record _
           eq_refl eq_refl ltac:(by vm_compute)).
Defined.



(** ** The arrays that the readers of a dump rebuild *)

















(** ** The answer of the archiver: what follows the last separator *)

Section LastPiece.
Local Open Scope Z_scope.











End LastPiece.




(** ** [save_timeanalys], then [load_timeanalys] *)











